(** * Client-side authentication session lifecycle

    A shallow embedding of the three front-end sources

    - [frontend/src/Services/api.js], the axios instance and its two
      interceptors (module [API]),
    - the [ForgotPassword] component of [frontend/src/pages/ForgotPassword.js]
      (module [ForgotPassword]),
    - the [LoginPage] component, which [App] imports from
      [pages/LoginPage] (module [LoginPage]),

    together with the part of the browser they run against: [localStorage],
    the network, the router and timers.  Event handlers are computations in
    a small state-and-exception monad whose state is the React state of the
    component plus the browser. *)

From Stdlib Require Import ZArith Ascii String List.
From stdpp Require Import gmap strings list.
Import ListNotations.

Local Open Scope Z_scope.

(** ** JavaScript values used by the sources *)

(** A value read from an object field or from [localStorage.getItem] is a
    string, or [undefined]/[null] (here [None]).  A JavaScript string is a
    sequence of code units; the code units of the model are the ones below
    256, one per [ascii]. *)
Module JS.

Definition truthy_string (s : string) : bool :=
  match s with
  | EmptyString => false
  | String _ _ => true
  end.

(** [if (v)], [v && ...], [v || ...] on a string-or-undefined value. *)
Definition truthy (v : option string) : bool :=
  match v with
  | Some s => truthy_string s
  | None => false
  end.

(** [v || fallback], where [fallback] is a string. *)
Definition or_else (v : option string) (fallback : string) : string :=
  match v with
  | Some s => if truthy_string s then s else fallback
  | None => fallback
  end.

(** [a && b] on two strings. *)
Definition and_string (a b : string) : string :=
  if truthy_string a then b else a.

(** The string conversion applied to a value stored by [setItem]. *)
Definition to_string (v : option string) : string :=
  match v with
  | Some s => s
  | None => "undefined"
  end.

(** White space and line terminators of ECMAScript among the code units
    below 256: TAB, LF, VT, FF, CR, SP and NBSP. *)
Definition is_whitespace (c : ascii) : bool :=
  let n := N_of_ascii c in
  (n =? 9)%N || (n =? 10)%N || (n =? 11)%N || (n =? 12)%N ||
  (n =? 13)%N || (n =? 32)%N || (n =? 160)%N.

Fixpoint trimStart (s : string) : string :=
  match s with
  | EmptyString => EmptyString
  | String c s' => if is_whitespace c then trimStart s' else s
  end.

Fixpoint trimEnd (s : string) : string :=
  match s with
  | EmptyString => EmptyString
  | String c s' =>
      match trimEnd s' with
      | EmptyString => if is_whitespace c then EmptyString else String c EmptyString
      | t => String c t
      end
  end.

(** [String.prototype.trim]. *)
Definition trim (s : string) : string := trimEnd (trimStart s).

(** A string of white space only (the empty string included). *)
Fixpoint blank (s : string) : bool :=
  match s with
  | EmptyString => true
  | String c s' => is_whitespace c && blank s'
  end.

(** [s.startsWith(p)] *)
Fixpoint startsWith (s p : string) : bool :=
  match p, s with
  | EmptyString, _ => true
  | String _ _, EmptyString => false
  | String a p', String b s' => bool_decide (a = b) && startsWith s' p'
  end.

(** [s.includes(p)]; also [/p/.test(s)] for a pattern [p] that matches
    literally. *)
Fixpoint includes (s p : string) : bool :=
  startsWith s p ||
  match s with
  | EmptyString => false
  | String _ s' => includes s' p
  end.

(** [s.endsWith(p)] *)
Fixpoint endsWith (s p : string) : bool :=
  bool_decide (s = p) ||
  match s with
  | EmptyString => false
  | String _ s' => endsWith s' p
  end.

End JS.

(** ** The browser: storage, network, router, timers *)

(** A plain object with string-valued fields (request bodies, response
    bodies, header tables). *)
Abbreviation object := (gmap string string).

Record http_response := {
  status : Z;
  (** the parsed body; [None] is [null]; a body that is not an object has
      no fields and is the empty object *)
  data : option object
}.

Record request_config := {
  url : string;
  method : string;
  headers : object;
  body : object
}.

(** What the network hands back for a dispatched request. *)
Inductive net_result :=
| NetResponse (r : http_response)
| NetFault.

(** The error axios rejects with: [response] is set when the server
    answered, and undefined on a network fault. *)
Record axios_error := { response : option http_response }.

Inductive exn :=
| AxiosError (e : axios_error)
| TypeError.

(** The only timer callback of the sources is [() => navigate(path)]. *)
Inductive callback := CbNavigate (path : string).

Inductive event :=
| EPreventDefault
| EDispatch (config : request_config)
| ENavigate (path : string)
| ESetTimeout (cb : callback) (delay : Z).

Record browser := {
  localStorage : gmap string string;
  (** what the page did, oldest first *)
  effects : list event
}.

Inductive completion (A : Type) :=
| Normal (a : A)
| Throw (e : exn).
Arguments Normal {A} a.
Arguments Throw {A} e.

(** A computation over the React state [S] of a component and the browser;
    an [await]ed promise that rejects is a [Throw]. *)
Definition M (S A : Type) : Type := S -> browser -> completion A * S * browser.

Definition ret {S A} (a : A) : M S A := fun s w => (Normal a, s, w).

Definition bind {S A B} (m : M S A) (k : A -> M S B) : M S B :=
  fun s w =>
    match m s w with
    | (Normal a, s', w') => k a s' w'
    | (Throw e, s', w') => (Throw e, s', w')
    end.

Definition throw {S A} (e : exn) : M S A := fun s w => (Throw e, s, w).

Definition try_catch {S A} (m : M S A) (handler : exn -> M S A) : M S A :=
  fun s w =>
    match m s w with
    | (Normal a, s', w') => (Normal a, s', w')
    | (Throw e, s', w') => handler e s' w'
    end.

Definition try_finally {S A} (m : M S A) (final : M S unit) : M S A :=
  fun s w =>
    match m s w with
    | (r, s', w') =>
        match final s' w' with
        | (Normal _, s'', w'') => (r, s'', w'')
        | (Throw e, s'', w'') => (Throw e, s'', w'')
        end
    end.

Declare Scope js_scope.
Delimit Scope js_scope with js.
Notation "x <- m ;; k" := (bind m (fun x => k))
  (at level 100, m at next level, right associativity) : js_scope.
Notation "m ;;; k" := (bind m (fun _ => k))
  (at level 100, right associativity) : js_scope.
Local Open Scope js_scope.

(** A React state setter: replaces the component state. *)
Definition set_state {S} (f : S -> S) : M S unit := fun s w => (Normal tt, f s, w).

Definition emit {S} (e : event) : M S unit :=
  fun s w => (Normal tt, s,
              {| localStorage := localStorage w; effects := effects w ++ [e] |}).

Definition getItem {S} (key : string) : M S (option string) :=
  fun s w => (Normal (localStorage w !! key), s, w).

Definition setItem {S} (key : string) (value : option string) : M S unit :=
  fun s w => (Normal tt, s,
              {| localStorage := <[key := JS.to_string value]> (localStorage w);
                 effects := effects w |}).

Definition removeItem {S} (key : string) : M S unit :=
  fun s w => (Normal tt, s,
              {| localStorage := delete key (localStorage w); effects := effects w |}).

Definition preventDefault {S} : M S unit := emit EPreventDefault.
Definition navigate {S} (path : string) : M S unit := emit (ENavigate path).
Definition setTimeout {S} (cb : callback) (delay : Z) : M S unit :=
  emit (ESetTimeout cb delay).

(** A timer fires: its callback runs. *)
Definition run_callback {S} (cb : callback) : M S unit :=
  match cb with
  | CbNavigate path => navigate path
  end.

(** Reading a field: [o.k] throws a [TypeError] on [null]; [o?.k] does not. *)
Definition field {S} (o : option object) (k : string) : M S (option string) :=
  match o with
  | Some fields => ret (fields !! k)
  | None => throw TypeError
  end.

Definition opt_field (o : option object) (k : string) : option string :=
  match o with
  | Some fields => fields !! k
  | None => None
  end.

(** [err.response]: set on the error axios rejects with when the server
    answered; undefined on any other thrown value. *)
Definition response_of (err : exn) : option http_response :=
  match err with
  | AxiosError e => response e
  | TypeError => None
  end.

(** [err.response?.data?.error] *)
Definition error_message (err : exn) : option string :=
  match response_of err with
  | Some r => opt_field (data r) "error"
  | None => None
  end.

(** [promise.then(onFulfilled, onRejected)] *)
Definition then_ {S A B} (m : M S A)
  (onFulfilled : A -> M S B) (onRejected : exn -> M S B) : M S B :=
  fun s w =>
    match m s w with
    | (Normal a, s', w') => onFulfilled a s' w'
    | (Throw e, s', w') => onRejected e s' w'
    end.

(** ** Observations on what the page did *)

(** The requests that left the client, oldest first. *)
Definition dispatched (es : list event) : list request_config :=
  flat_map (fun e => match e with EDispatch c => [c] | _ => [] end) es.

(** The timers that were set. *)
Definition scheduled (es : list event) : list (callback * Z) :=
  flat_map (fun e => match e with ESetTimeout cb d => [(cb, d)] | _ => [] end) es.

(** The immediate navigations. *)
Definition navigations (es : list event) : list string :=
  flat_map (fun e => match e with ENavigate p => [p] | _ => [] end) es.

(** What happened between browser [w] and a later browser [w']. *)
Definition since (w w' : browser) : list event :=
  drop (length (effects w)) (effects w').

(** ** Services/api.js *)
Module API.
(** What [normalizeBaseUrl] can see of the global [window]: it is not
    defined, or [window.location.host] is a string, or reading it throws. *)
Inductive window_state :=
| WindowUndefined
| WindowHost (host : string)
| WindowThrows.

Definition local_api : string := "http://127.0.0.1:8000/api/".
Definition production_api : string := "https://api.pretiuminvestment.com/api/".

(** [normalizeBaseUrl(url)], with [url] the value of
    [process.env.REACT_APP_API_BASE_URL]. *)
Definition normalizeBaseUrl (window : window_state) (url : option string)
  : string :=
  if negb (JS.truthy url)
  then
    match window with
    | WindowUndefined => production_api
    | WindowHost host =>
        if JS.includes host "localhost" || JS.includes host "127.0.0.1"
        then local_api
        else production_api
    | WindowThrows => local_api
    end
  else
    if JS.endsWith (JS.to_string url) "/"
    then JS.to_string url
    else JS.to_string url +:+ "/".

Section WithBackend.

Variable backend : request_config -> net_result.
Context {S : Type}.

(** [axios.create({ baseURL, headers: {"Content-Type": "application/json"} })];
    [url] stays relative to the configured base. *)
Definition create_config (path : string) (payload : object) : request_config :=
  {| url := path;
     method := "post";
     headers := {[ "Content-Type" := "application/json" ]};
     body := payload |}.

Definition set_header (name value : string) (config : request_config)
  : request_config :=
  {| url := url config;
     method := method config;
     headers := <[name := value]> (headers config);
     body := body config |}.

(** [if (token) { config.headers.Authorization = `Bearer ${token}`; }] *)
Definition with_bearer (token : option string) (config : request_config)
  : request_config :=
  if JS.truthy token
  then set_header "Authorization" ("Bearer " +:+ JS.to_string token) config
  else config.

(** The fulfilled handler of [API.interceptors.request.use]. *)
Definition request_onFulfilled (config : request_config) : M S request_config :=
  token <- getItem "access_token" ;;
  ret (with_bearer token config).

(** The handlers of [API.interceptors.response.use]. *)
Definition response_onFulfilled (r : http_response) : M S http_response := ret r.

Definition response_onRejected (error : exn) : M S http_response :=
  (match response_of error with
   | Some r =>
       if status r =? 401
       then removeItem "access_token" ;;; removeItem "refresh_token"
       else ret tt
   | None => ret tt
   end) ;;;
  throw error.

(** axios settles a response by its status ([validateStatus]: 2xx
    resolves, everything else rejects with the response attached); a
    network fault rejects with no response. *)
Definition settle (n : net_result) : http_response + axios_error :=
  match n with
  | NetResponse r =>
      if (200 <=? status r) && (status r <? 300)
      then inl r
      else inr {| response := Some r |}
  | NetFault => inr {| response := None |}
  end.

(** The request leaves the client and the promise settles. *)
Definition dispatchRequest (config : request_config) : M S http_response :=
  emit (EDispatch config) ;;;
  match settle (backend config) with
  | inl r => ret r
  | inr error => throw (AxiosError error)
  end.

(** Dispatch followed by the response interceptor. *)
Definition send (config : request_config) : M S http_response :=
  then_ (dispatchRequest config) response_onFulfilled response_onRejected.

(** [API.post(path, payload)]: request interceptor, dispatch, response
    interceptor. *)
Definition post (path : string) (payload : object) : M S http_response :=
  config <- request_onFulfilled (create_config path payload) ;;
  send config.

(** The request [post] sends from browser [w]. *)
Definition outgoing (path : string) (payload : object) (w : browser)
  : request_config :=
  with_bearer (localStorage w !! "access_token") (create_config path payload).

End WithBackend.
End API.

(** ** pages/ForgotPassword.js *)
Module ForgotPassword.

(** [new URLSearchParams(search)]: the name/value pairs of the query
    string, in order; [get] returns the first value of a name. *)
Definition URLSearchParams := list (string * string).

Fixpoint get (query : URLSearchParams) (name : string) : option string :=
  match query with
  | [] => None
  | (k, v) :: rest => if bool_decide (k = name) then Some v else get rest name
  end.

(** The [useState] cells of the component. *)
Record state := {
  email : string;
  requestStatus : string;
  requestError : string;
  isRequesting : bool;
  uid : string;
  token : string;
  password : string;
  confirm : string;
  confirmStatus : string;
  confirmError : string;
  isConfirming : bool
}.

Definition setRequestStatus (v : string) : M state unit :=
  set_state (fun s =>
    {| email := email s; requestStatus := v; requestError := requestError s;
       isRequesting := isRequesting s; uid := uid s; token := token s;
       password := password s; confirm := confirm s;
       confirmStatus := confirmStatus s; confirmError := confirmError s;
       isConfirming := isConfirming s |}).

Definition setRequestError (v : string) : M state unit :=
  set_state (fun s =>
    {| email := email s; requestStatus := requestStatus s; requestError := v;
       isRequesting := isRequesting s; uid := uid s; token := token s;
       password := password s; confirm := confirm s;
       confirmStatus := confirmStatus s; confirmError := confirmError s;
       isConfirming := isConfirming s |}).

Definition setIsRequesting (v : bool) : M state unit :=
  set_state (fun s =>
    {| email := email s; requestStatus := requestStatus s;
       requestError := requestError s;
       isRequesting := v; uid := uid s; token := token s;
       password := password s; confirm := confirm s;
       confirmStatus := confirmStatus s; confirmError := confirmError s;
       isConfirming := isConfirming s |}).

Definition setUid (v : string) : M state unit :=
  set_state (fun s =>
    {| email := email s; requestStatus := requestStatus s;
       requestError := requestError s;
       isRequesting := isRequesting s; uid := v; token := token s;
       password := password s; confirm := confirm s;
       confirmStatus := confirmStatus s; confirmError := confirmError s;
       isConfirming := isConfirming s |}).

Definition setToken (v : string) : M state unit :=
  set_state (fun s =>
    {| email := email s; requestStatus := requestStatus s;
       requestError := requestError s;
       isRequesting := isRequesting s; uid := uid s; token := v;
       password := password s; confirm := confirm s;
       confirmStatus := confirmStatus s; confirmError := confirmError s;
       isConfirming := isConfirming s |}).

Definition setConfirmStatus (v : string) : M state unit :=
  set_state (fun s =>
    {| email := email s; requestStatus := requestStatus s;
       requestError := requestError s;
       isRequesting := isRequesting s; uid := uid s; token := token s;
       password := password s; confirm := confirm s;
       confirmStatus := v; confirmError := confirmError s;
       isConfirming := isConfirming s |}).

Definition setConfirmError (v : string) : M state unit :=
  set_state (fun s =>
    {| email := email s; requestStatus := requestStatus s;
       requestError := requestError s;
       isRequesting := isRequesting s; uid := uid s; token := token s;
       password := password s; confirm := confirm s;
       confirmStatus := confirmStatus s; confirmError := v;
       isConfirming := isConfirming s |}).

Definition setIsConfirming (v : bool) : M state unit :=
  set_state (fun s =>
    {| email := email s; requestStatus := requestStatus s;
       requestError := requestError s;
       isRequesting := isRequesting s; uid := uid s; token := token s;
       password := password s; confirm := confirm s;
       confirmStatus := confirmStatus s; confirmError := confirmError s;
       isConfirming := v |}).

(** The setters behind the [onChange] handlers of the inputs. *)
Definition setEmail (v : string) : M state unit :=
  set_state (fun s =>
    {| email := v; requestStatus := requestStatus s;
       requestError := requestError s;
       isRequesting := isRequesting s; uid := uid s; token := token s;
       password := password s; confirm := confirm s;
       confirmStatus := confirmStatus s; confirmError := confirmError s;
       isConfirming := isConfirming s |}).

Definition setPassword (v : string) : M state unit :=
  set_state (fun s =>
    {| email := email s; requestStatus := requestStatus s;
       requestError := requestError s;
       isRequesting := isRequesting s; uid := uid s; token := token s;
       password := v; confirm := confirm s;
       confirmStatus := confirmStatus s; confirmError := confirmError s;
       isConfirming := isConfirming s |}).

Definition setConfirm (v : string) : M state unit :=
  set_state (fun s =>
    {| email := email s; requestStatus := requestStatus s;
       requestError := requestError s;
       isRequesting := isRequesting s; uid := uid s; token := token s;
       password := password s; confirm := v;
       confirmStatus := confirmStatus s; confirmError := confirmError s;
       isConfirming := isConfirming s |}).

(** [if (v) k(v)] *)
Definition when_truthy (v : option string) (k : string -> M state unit)
  : M state unit :=
  match v with
  | Some s => if JS.truthy_string s then k s else ret tt
  | None => ret tt
  end.

(** The elements the component renders.  A child that is [false] or the
    empty string renders nothing. *)
Inductive handler := SubmitRequest | SubmitConfirm.

#[local] Set Warnings "-register-all".
Inductive vnode :=
| VNothing
| VHeading (level : nat) (text : string)
| VInput (placeholder value : string)
| VButton (disabled : bool) (label : string)
| VParagraph (color text : string)
| VForm (onSubmit : handler) (children : list vnode)
| VDiv (children : list vnode).

(** [s && <p style={{ color }}>{s}</p>] *)
Definition paragraph_if (color text : string) : vnode :=
  if JS.truthy_string text then VParagraph color text else VNothing.

(** The forms of a rendered tree, in document order. *)
Fixpoint forms (v : vnode) : list handler :=
  match v with
  | VForm h children => h :: flat_map forms children
  | VDiv children => flat_map forms children
  | _ => []
  end.

(** The paragraphs of a rendered tree, in document order. *)
Fixpoint paragraphs (v : vnode) : list string :=
  match v with
  | VParagraph _ text => [text]
  | VForm _ children => flat_map paragraphs children
  | VDiv children => flat_map paragraphs children
  | _ => []
  end.

Section Component.

Variable backend : request_config -> net_result.
(** [useQuery()]: the query of the current location. *)
Variable query : URLSearchParams.

Definition initUid : string := JS.or_else (get query "uid") "".
Definition initToken : string := JS.or_else (get query "token") "".

Definition initial_state : state :=
  {| email := ""; requestStatus := ""; requestError := "";
     isRequesting := false;
     uid := initUid; token := initToken; password := ""; confirm := "";
     confirmStatus := ""; confirmError := ""; isConfirming := false |}.

Definition showConfirm : bool :=
  JS.truthy_string (JS.and_string initUid initToken).

(** The body of [useEffect(..., [showConfirm])]. *)
Definition effect_showConfirm : M state unit :=
  if showConfirm
  then setRequestStatus "" ;;; setRequestError ""
  else ret tt.

(** A handler closes over the state cells of the render it belongs to:
    [c] holds those values; setters act on the live state. *)
Definition submitRequest (c : state) : M state unit :=
  preventDefault ;;;
  setIsRequesting true ;;;
  setRequestError "" ;;;
  setRequestStatus "" ;;;
  try_finally
    (try_catch
       (r <- API.post backend "password-reset-request/"
               {[ "email" := JS.trim (email c) ]} ;;
        setRequestStatus
          (JS.or_else (opt_field (data r) "message")
             "If an account exists for that email, a reset link will be sent.") ;;;
        when_truthy (opt_field (data r) "uid") setUid ;;;
        when_truthy (opt_field (data r) "token") setToken)
       (fun err =>
          setRequestError
            (JS.or_else (error_message err) "Unable to submit request.")))
    (setIsRequesting false).

Definition submitConfirm (c : state) : M state unit :=
  preventDefault ;;;
  setIsConfirming true ;;;
  setConfirmError "" ;;;
  setConfirmStatus "" ;;;
  if bool_decide (password c ≠ confirm c)
  then
    setConfirmError "Passwords do not match." ;;;
    setIsConfirming false
  else
    try_finally
      (try_catch
         (_ <- API.post backend "password-reset-confirm/"
                 {[ "uid" := JS.trim (uid c);
                    "token" := JS.trim (token c);
                    "new_password" := password c ]} ;;
          setConfirmStatus "Password updated. You can now sign in." ;;;
          setTimeout (CbNavigate "/") 1200)
         (fun err =>
            setConfirmError
              (JS.or_else (error_message err) "Unable to reset password.")))
      (setIsConfirming false).

(** The returned JSX. *)
Definition render (c : state) : vnode :=
  VDiv [
    VHeading 1 "Password reset";
    (if negb showConfirm
     then VForm SubmitRequest [
            VInput "Your account email" (email c);
            VButton (isRequesting c)
              (if isRequesting c then "Submitting..." else "Send reset link");
            paragraph_if "#0f5a44" (requestStatus c);
            paragraph_if "#b00020" (requestError c) ]
     else VNothing);
    VDiv [
      VHeading 2 "Set new password";
      VForm SubmitConfirm [
        VInput "UID" (uid c);
        VInput "Token" (token c);
        VInput "New password (min 8 chars)" (password c);
        VInput "Confirm new password" (confirm c);
        VButton (isConfirming c)
          (if isConfirming c then "Updating..." else "Update password");
        paragraph_if "#0f5a44" (confirmStatus c);
        paragraph_if "#b00020" (confirmError c) ] ] ].

End Component.

(** Firing a handler of the current render: the closure holds the
    current state. *)
Definition fire (h : state -> M state unit) (s : state) (w : browser)
  : completion unit * state * browser := h s s w.

(** The component once a reset request has finished: status and error
    cells of the request phase as given, its pending flag down, the
    correlation pair as given, everything else as in [c]. *)
Definition request_settled (c : state) (status error uid' token' : string)
  : state :=
  {| email := email c; requestStatus := status; requestError := error;
     isRequesting := false; uid := uid'; token := token';
     password := password c; confirm := confirm c;
     confirmStatus := confirmStatus c; confirmError := confirmError c;
     isConfirming := isConfirming c |}.

(** The component once a confirmation has finished. *)
Definition confirm_settled (c : state) (status error : string) : state :=
  {| email := email c; requestStatus := requestStatus c;
     requestError := requestError c; isRequesting := isRequesting c;
     uid := uid c; token := token c;
     password := password c; confirm := confirm c;
     confirmStatus := status; confirmError := error;
     isConfirming := false |}.

(** The bodies of the two requests. *)
Definition request_body (c : state) : object :=
  {[ "email" := JS.trim (email c) ]}.

Definition confirm_body (c : state) : object :=
  {[ "uid" := JS.trim (uid c);
     "token" := JS.trim (token c);
     "new_password" := password c ]}.

End ForgotPassword.

(** ** pages/LoginPage.js *)
Module LoginPage.

Record state := {
  username : string;
  password : string;
  token : string;
  error : string;
  isSubmitting : bool
}.

Definition setError (v : string) : M state unit :=
  set_state (fun s =>
    {| username := username s; password := password s; token := token s;
       error := v; isSubmitting := isSubmitting s |}).

Definition setIsSubmitting (v : bool) : M state unit :=
  set_state (fun s =>
    {| username := username s; password := password s; token := token s;
       error := error s; isSubmitting := v |}).

Section Component.

Variable backend : request_config -> net_result.

(** The object sent to [login/]. *)
Definition payload (c : state) : object :=
  let payload : object :=
    {[ "username" := JS.trim (username c); "password" := password c ]} in
  if JS.truthy_string (JS.trim (token c))
  then <[ "token" := JS.trim (token c) ]> payload
  else payload.

Definition handleLogin (c : state) : M state unit :=
  preventDefault ;;;
  setIsSubmitting true ;;;
  setError "" ;;;
  try_finally
    (try_catch
       (r <- API.post backend "login/" (payload c) ;;
        access <- field (data r) "access" ;;
        setItem "access_token" access ;;;
        refresh <- field (data r) "refresh" ;;
        (if JS.truthy refresh then setItem "refresh_token" refresh else ret tt) ;;;
        navigate "/dashboard")
       (fun err =>
          setError
            (JS.or_else (error_message err)
               "Login failed. Check your credentials and 2FA token.")))
    (setIsSubmitting false).

End Component.

Definition fire (h : state -> M state unit) (s : state) (w : browser)
  : completion unit * state * browser := h s s w.

(** The setters behind the [onChange] handlers of the inputs. *)
Definition setUsername (v : string) : M state unit :=
  set_state (fun s =>
    {| username := v; password := password s; token := token s;
       error := error s; isSubmitting := isSubmitting s |}).

Definition setPassword (v : string) : M state unit :=
  set_state (fun s =>
    {| username := username s; password := v; token := token s;
       error := error s; isSubmitting := isSubmitting s |}).

Definition setToken (v : string) : M state unit :=
  set_state (fun s =>
    {| username := username s; password := password s; token := v;
       error := error s; isSubmitting := isSubmitting s |}).

(** The elements the page renders.  [VAlert] is the paragraph with
    [role="alert"]; [VLink] is a [span] with [role="link"] whose [onClick]
    is [() => navigate(target)]. *)
#[local] Set Warnings "-register-all".
Inductive vnode :=
| VNothing
| VHeading (text : string)
| VAlert (text : string)
| VInput (placeholder value : string)
| VButton (disabled : bool) (label : string)
| VText (text : string)
| VLink (target text : string)
| VForm (children : list vnode)
| VParagraph (children : list vnode)
| VDiv (children : list vnode).

(** The returned JSX. *)
Definition render (c : state) : vnode :=
  VDiv [
    VHeading "Sign in";
    (if JS.truthy_string (error c) then VAlert (error c) else VNothing);
    VForm [
      VInput "Username" (username c);
      VInput "Password" (password c);
      VInput "2FA token (if enabled)" (token c);
      VButton (isSubmitting c)
        (if isSubmitting c then "Signing in..." else "Login") ];
    VParagraph [
      VText "Need an account? ";
      VLink "/register" "Create one now" ];
    VParagraph [
      VLink "/forgot-password" "Forgot your password?" ] ].

(** The alerts of a rendered tree, in document order. *)
Fixpoint alerts (v : vnode) : list string :=
  match v with
  | VAlert text => [text]
  | VForm children => flat_map alerts children
  | VParagraph children => flat_map alerts children
  | VDiv children => flat_map alerts children
  | _ => []
  end.

(** The navigation targets of the links of a rendered tree. *)
Fixpoint links (v : vnode) : list string :=
  match v with
  | VLink target _ => [target]
  | VForm children => flat_map links children
  | VParagraph children => flat_map links children
  | VDiv children => flat_map links children
  | _ => []
  end.

(** The [disabled] attributes of the buttons of a rendered tree. *)
Fixpoint buttons (v : vnode) : list bool :=
  match v with
  | VButton disabled _ => [disabled]
  | VForm children => flat_map buttons children
  | VParagraph children => flat_map buttons children
  | VDiv children => flat_map buttons children
  | _ => []
  end.

(** The form once a submission has finished: the error cell holds
    [message], the pending flag is down, the inputs are as typed. *)
Definition settled (c : state) (message : string) : state :=
  {| username := username c; password := password c; token := token c;
     error := message; isSubmitting := false |}.

End LoginPage.

(** ** App.js *)
Module App.

Inductive page := Dashboard | Generate2FA.

(** What a route renders. *)
Inductive element :=
| LoginPageElement
| RegisterPageElement
| ForgotPasswordElement
| Protected (child : page)
| Redirect (to : string).

(** The [<Route path=... element=... />] entries of [<Routes>], in
    order; ["*"] is the catch-all. *)
Definition routes : list (string * element) :=
  [ ("/", LoginPageElement);
    ("/register", RegisterPageElement);
    ("/forgot-password", ForgotPasswordElement);
    ("/reset-password", ForgotPasswordElement);
    ("/dashboard", Protected Dashboard);
    ("/settings/2fa", Protected Generate2FA);
    ("*", Redirect "/") ].

(** The paths declared by a route of their own. *)
Definition declared : list string :=
  filter (fun p => p <> "*") (map fst routes).

End App.

(** ** Scenarios

    Concrete browsers, backends and form contents on which the handlers
    are run below. *)
Module Scenario.

Definition fresh : browser := {| localStorage := ∅; effects := [] |}.

(** A signed-in browser. *)
Definition signed_in : browser :=
  {| localStorage := {[ "access_token" := "A1"; "refresh_token" := "R1" ]};
     effects := [] |}.

(** A browser whose [access_token] entry holds the empty string. *)
Definition blank_token : browser :=
  {| localStorage := {[ "access_token" := "" ]}; effects := [] |}.

(** A browser that kept a refresh token of an earlier session. *)
Definition stale_refresh : browser :=
  {| localStorage := {[ "refresh_token" := "R0" ]}; effects := [] |}.

Definition unauthorized : http_response :=
  {| status := 401; data := Some {[ "error" := "Invalid credentials" ]} |}.

(** A rejection that is not an authentication failure. *)
Definition bad_request : http_response :=
  {| status := 400; data := Some {[ "error" := "Invalid credentials" ]} |}.

Definition answers (r : http_response) : request_config -> net_result :=
  fun _ => NetResponse r.

Definition ok (fields : object) : http_response :=
  {| status := 200; data := Some fields |}.

(** The reset page opened from a mailed link, and opened bare. *)
Definition link_query : ForgotPassword.URLSearchParams :=
  [("uid", "MQ"); ("token", "c9x-41f")].

Definition bare_query : ForgotPassword.URLSearchParams := [].

(** The reset form with two different passwords typed in. *)
Definition mismatch : ForgotPassword.state :=
  {| ForgotPassword.email := ""; ForgotPassword.requestStatus := "";
     ForgotPassword.requestError := ""; ForgotPassword.isRequesting := false;
     ForgotPassword.uid := "MQ"; ForgotPassword.token := "c9x-41f";
     ForgotPassword.password := "abc12345"; ForgotPassword.confirm := "abc999";
     ForgotPassword.confirmStatus := ""; ForgotPassword.confirmError := "";
     ForgotPassword.isConfirming := false |}.

(** The reset form with the same password typed twice. *)
Definition matching : ForgotPassword.state :=
  {| ForgotPassword.email := ""; ForgotPassword.requestStatus := "";
     ForgotPassword.requestError := ""; ForgotPassword.isRequesting := false;
     ForgotPassword.uid := " MQ "; ForgotPassword.token := "c9x-41f";
     ForgotPassword.password := "abc12345"; ForgotPassword.confirm := "abc12345";
     ForgotPassword.confirmStatus := ""; ForgotPassword.confirmError := "";
     ForgotPassword.isConfirming := false |}.

(** The request form with an email typed in and a correlation pair
    already entered by hand. *)
Definition asking : ForgotPassword.state :=
  {| ForgotPassword.email := " bob@example.com "; ForgotPassword.requestStatus := "";
     ForgotPassword.requestError := ""; ForgotPassword.isRequesting := false;
     ForgotPassword.uid := "typed-uid"; ForgotPassword.token := "typed-token";
     ForgotPassword.password := ""; ForgotPassword.confirm := "";
     ForgotPassword.confirmStatus := ""; ForgotPassword.confirmError := "";
     ForgotPassword.isConfirming := false |}.

(** The sign-in form filled with a wrong password and no 2FA code. *)
Definition alice_wrong : LoginPage.state :=
  {| LoginPage.username := "alice"; LoginPage.password := "wrong";
     LoginPage.token := ""; LoginPage.error := "";
     LoginPage.isSubmitting := false |}.

(** The sign-in form with padded username and 2FA code. *)
Definition alice_2fa : LoginPage.state :=
  {| LoginPage.username := " alice "; LoginPage.password := "s3cret pw";
     LoginPage.token := " 123456 "; LoginPage.error := "";
     LoginPage.isSubmitting := false |}.

(** A sign-in answer with both tokens. *)
Definition both_tokens : http_response :=
  ok {[ "access" := "A2"; "refresh" := "R2" ]}.

(** A forbidden answer. *)
Definition forbidden : http_response :=
  {| status := 403; data := Some {[ "error" := "Forbidden" ]} |}.

End Scenario.

(** ** Sanity checks of the prelude *)

Example trim_both_ends : JS.trim "  alice  " = "alice".
Proof. reflexivity. Qed.

Example trim_inner_space_kept : JS.trim " a b " = "a b".
Proof. reflexivity. Qed.

Example trim_all_space : JS.trim "   " = "".
Proof. reflexivity. Qed.

(** ** The request gateway *)

Section Gateway.

Variable backend : request_config -> net_result.
Context {S : Type}.

Lemma request_onFulfilled_eq (config : request_config) (s : S) (w : browser) :
  API.request_onFulfilled config s w
  = (Normal (API.with_bearer (localStorage w !! "access_token") config), s, w).
Proof. reflexivity. Qed.

(** The rejected handler, case by case on the status it sees. *)
Lemma response_onRejected_eq (err : exn) (s : S) (w : browser) :
  API.response_onRejected err s w
  = (Throw err, s,
     match response_of err with
     | Some r =>
         if status r =? 401
         then {| localStorage :=
                   delete "refresh_token" (delete "access_token" (localStorage w));
                 effects := effects w |}
         else w
     | None => w
     end).
Proof.
  unfold API.response_onRejected, bind.
  destruct (response_of err) as [r|]; [destruct (status r =? 401)|];
    destruct w; reflexivity.
Qed.

End Gateway.

Section GatewaySend.

Variable backend : request_config -> net_result.
Context {S : Type}.

Lemma send_fulfilled (config : request_config) (r : http_response) (s : S) (w : browser) :
  API.settle (backend config) = inl r ->
  API.send backend config s w
  = (Normal r, s,
     {| localStorage := localStorage w; effects := effects w ++ [EDispatch config] |}).
Proof.
  intros Hr. unfold API.send, then_, API.dispatchRequest, bind, emit.
  rewrite Hr. reflexivity.
Qed.

Lemma send_rejected (config : request_config) (e : axios_error) (s : S) (w : browser) :
  API.settle (backend config) = inr e ->
  API.send backend config s w
  = (Throw (AxiosError e), s,
     {| localStorage :=
          match response e with
          | Some r =>
              if status r =? 401
              then delete "refresh_token" (delete "access_token" (localStorage w))
              else localStorage w
          | None => localStorage w
          end;
        effects := effects w ++ [EDispatch config] |}).
Proof.
  intros He. unfold API.send, then_, API.dispatchRequest, bind, emit.
  rewrite He. cbn [throw]. rewrite response_onRejected_eq. cbn [response_of].
  destruct (response e) as [r|]; [destruct (status r =? 401)|]; reflexivity.
Qed.

Lemma post_eq (path : string) (payload : object) (s : S) (w : browser) :
  API.post backend path payload s w
  = API.send backend (API.outgoing path payload w) s w.
Proof. reflexivity. Qed.

Lemma settle_401 (config : request_config) (r : http_response) :
  backend config = NetResponse r -> status r = 401 ->
  API.settle (backend config) = inr {| response := Some r |}.
Proof. intros -> Hs. unfold API.settle. rewrite Hs. reflexivity. Qed.

(** C1. Whatever request [config] was sent, when the backend answers it
    with status 401 the rejected handler removes [access_token] and
    [refresh_token] from [localStorage] and rejects with the very error it
    was given; through [send] the caller sees that error after exactly one
    dispatch: nothing is retried and no refresh exchange takes place. *)
Theorem unauthorized_response_clears_session
    (config : request_config) (r : http_response) (s : S) (w : browser) :
  backend config = NetResponse r ->
  status r = 401 ->
  API.response_onRejected (AxiosError {| response := Some r |}) s w
  = (Throw (AxiosError {| response := Some r |}), s,
     {| localStorage := delete "refresh_token" (delete "access_token" (localStorage w));
        effects := effects w |})
  /\ API.send backend config s w
  = (Throw (AxiosError {| response := Some r |}), s,
     {| localStorage := delete "refresh_token" (delete "access_token" (localStorage w));
        effects := effects w ++ [EDispatch config] |}).
Proof.
  intros Hb Hs. split.
  - rewrite response_onRejected_eq. cbn [response_of response].
    rewrite Hs. reflexivity.
  - rewrite (send_rejected config _ s w (settle_401 config r Hb Hs)).
    cbn [response]. rewrite Hs. reflexivity.
Qed.

End GatewaySend.

Lemma unauthorized_response_clears_session_witness :
  Scenario.answers Scenario.unauthorized (API.create_config "profile/" ∅)
    = NetResponse Scenario.unauthorized
  /\ status Scenario.unauthorized = 401
  /\ API.send (Scenario.answers Scenario.unauthorized)
       (API.create_config "profile/" ∅) tt Scenario.signed_in
     = (Throw (AxiosError {| response := Some Scenario.unauthorized |}), tt,
        {| localStorage :=
             delete "refresh_token"
               (delete "access_token" (localStorage Scenario.signed_in));
           effects := [EDispatch (API.create_config "profile/" ∅)] |}).
Proof.
  split; [reflexivity|]. split; [reflexivity|].
  apply (unauthorized_response_clears_session
           (Scenario.answers Scenario.unauthorized)
           (API.create_config "profile/" ∅) Scenario.unauthorized tt
           Scenario.signed_in); reflexivity.
Defined.

Example signed_in_evicted :
  delete "refresh_token" (delete "access_token" (localStorage Scenario.signed_in))
  = (∅ : gmap string string).
Proof. vm_compute. reflexivity. Qed.

(** ** Credentials on outbound requests *)

Lemma since_app (w : browser) (ls : gmap string string) (es : list event) :
  since w {| localStorage := ls; effects := effects w ++ es |} = es.
Proof. unfold since. cbn [effects]. apply drop_app_length. Qed.

Lemma headers_with_bearer (token : option string) (config : request_config) :
  headers (API.with_bearer token config)
  = match token with
    | Some t =>
        if JS.truthy_string t
        then <["Authorization" := "Bearer " +:+ t]> (headers config)
        else headers config
    | None => headers config
    end.
Proof.
  unfold API.with_bearer.
  destruct token as [t|]; [destruct t|]; reflexivity.
Qed.

Lemma truthy_string_nonempty (t : string) : t <> "" -> JS.truthy_string t = true.
Proof. destruct t; [congruence | reflexivity]. Qed.

Section Bearer.

Variable backend : request_config -> net_result.
Context {S : Type}.

(** Every [post] dispatches exactly one request, the one built by the
    request interceptor from the storage at that moment. *)
Lemma post_dispatches_outgoing (path : string) (payload : object) (s : S) (w : browser) :
  dispatched (since w (API.post backend path payload s w).2)
  = [API.outgoing path payload w].
Proof.
  rewrite post_eq.
  destruct (API.settle (backend (API.outgoing path payload w))) as [r|e] eqn:E.
  - rewrite (send_fulfilled backend _ r s w E). cbn [snd]. rewrite since_app.
    reflexivity.
  - rewrite (send_rejected backend _ e s w E). cbn [snd]. rewrite since_app.
    reflexivity.
Qed.

(** C3, as amended. The single request a [post] dispatches carries
    [Authorization: Bearer <token>] when [access_token] is stored with a
    non-empty value [token]; when [access_token] is absent, or stored as the
    empty string, the request carries no [Authorization] header. *)
Theorem bearer_attached_iff_token_nonempty
    (path : string) (payload : object) (s : S) (w : browser) :
  dispatched (since w (API.post backend path payload s w).2)
  = [API.outgoing path payload w]
  /\ (forall t : string,
        localStorage w !! "access_token" = Some t -> t <> "" ->
        headers (API.outgoing path payload w) !! "Authorization"
        = Some ("Bearer " +:+ t))
  /\ (localStorage w !! "access_token" = None
      \/ localStorage w !! "access_token" = Some "" ->
      headers (API.outgoing path payload w) !! "Authorization" = None).
Proof.
  split; [apply post_dispatches_outgoing|].
  unfold API.outgoing. rewrite headers_with_bearer. split.
  - intros t -> Ht. rewrite (truthy_string_nonempty t Ht).
    apply lookup_insert_eq.
  - intros [-> | ->]; reflexivity.
Qed.

End Bearer.

Lemma bearer_attached_iff_token_nonempty_witness :
  localStorage Scenario.signed_in !! "access_token" = Some "A1"
  /\ "A1" <> ""
  /\ headers (API.outgoing "profile/" ∅ Scenario.signed_in) !! "Authorization"
     = Some "Bearer A1"
  /\ localStorage Scenario.fresh !! "access_token" = None
  /\ headers (API.outgoing "profile/" ∅ Scenario.fresh) !! "Authorization" = None.
Proof.
  split; [reflexivity|]. split; [discriminate|]. split.
  - apply (proj1 (proj2 (bearer_attached_iff_token_nonempty
                           (Scenario.answers Scenario.unauthorized)
                           "profile/" ∅ tt Scenario.signed_in)) "A1");
      [reflexivity | discriminate].
  - split; [reflexivity|].
    apply (proj2 (proj2 (bearer_attached_iff_token_nonempty
                           (Scenario.answers Scenario.unauthorized)
                           "profile/" ∅ tt Scenario.fresh))).
    left. reflexivity.
Defined.

(** C3 as first stated fails: with [access_token] stored as the empty
    string a token entry is present, yet the dispatched request has no
    [Authorization] header (the claim asks for [Bearer ] followed by the
    stored value). *)
Lemma blank_token_sends_no_bearer :
  localStorage Scenario.blank_token !! "access_token" = Some ""
  /\ dispatched
       (since Scenario.blank_token
          (API.post (Scenario.answers Scenario.unauthorized) "profile/" ∅ tt
             Scenario.blank_token).2)
     = [API.create_config "profile/" ∅]
  /\ headers (API.create_config "profile/" ∅) !! "Authorization" = None
  /\ headers (API.create_config "profile/" ∅) !! "Authorization"
     <> Some ("Bearer " +:+ "").
Proof.
  split; [reflexivity|]. split; [reflexivity|]. split; [reflexivity|].
  discriminate.
Qed.

(** ** Sign-in *)

Lemma outgoing_url (path : string) (payload : object) (w : browser) :
  url (API.outgoing path payload w) = path.
Proof.
  unfold API.outgoing, API.with_bearer.
  destruct (JS.truthy _); reflexivity.
Qed.

Lemma outgoing_body (path : string) (payload : object) (w : browser) :
  body (API.outgoing path payload w) = payload.
Proof.
  unfold API.outgoing, API.with_bearer.
  destruct (JS.truthy _); reflexivity.
Qed.

Section SignIn.

Import LoginPage.

Variable backend : request_config -> net_result.

(** A rejected or faulted [login/] call: the catch branch sets the
    message, and the storage is the one [API.post] left. *)
Lemma handleLogin_rejected (c : state) (w : browser) (e : axios_error) :
  API.settle (backend (API.outgoing "login/" (payload c) w)) = inr e ->
  fire (handleLogin backend) c w
  = (Normal tt,
     settled c (JS.or_else (error_message (AxiosError e))
                  "Login failed. Check your credentials and 2FA token."),
     {| localStorage :=
          match response e with
          | Some r =>
              if status r =? 401
              then delete "refresh_token" (delete "access_token" (localStorage w))
              else localStorage w
          | None => localStorage w
          end;
        effects :=
          effects w ++ [EPreventDefault;
                        EDispatch (API.outgoing "login/" (payload c) w)] |}).
Proof.
  intros He. unfold fire, handleLogin, try_finally, try_catch.
  unfold bind at 1 2 3. cbn [preventDefault emit setIsSubmitting setError set_state].
  unfold bind at 1. rewrite post_eq.
  change (API.outgoing "login/" (payload c)
            {| localStorage := localStorage w;
               effects := effects w ++ [EPreventDefault] |})
    with (API.outgoing "login/" (payload c) w).
  rewrite (send_rejected backend _ e _ _ He).
  cbn. rewrite <- app_assoc. reflexivity.
Qed.

(** An accepted [login/] call whose body is an object. *)
Lemma handleLogin_fulfilled (c : state) (w : browser) (r : http_response)
    (fields : object) :
  API.settle (backend (API.outgoing "login/" (payload c) w)) = inl r ->
  data r = Some fields ->
  fire (handleLogin backend) c w
  = (Normal tt, settled c "",
     {| localStorage :=
          (if JS.truthy (fields !! "refresh")
           then <["refresh_token" := JS.to_string (fields !! "refresh")]>
           else id)
            (<["access_token" := JS.to_string (fields !! "access")]> (localStorage w));
        effects :=
          effects w ++ [EPreventDefault;
                        EDispatch (API.outgoing "login/" (payload c) w);
                        ENavigate "/dashboard"] |}).
Proof.
  intros Hr Hd. unfold fire, handleLogin, try_finally, try_catch.
  unfold bind at 1 2 3. cbn [preventDefault emit setIsSubmitting setError set_state].
  unfold bind at 1. rewrite post_eq.
  change (API.outgoing "login/" (payload c)
            {| localStorage := localStorage w;
               effects := effects w ++ [EPreventDefault] |})
    with (API.outgoing "login/" (payload c) w).
  rewrite (send_fulfilled backend _ r _ _ Hr).
  rewrite Hd. cbn.
  destruct (JS.truthy (fields !! "refresh")); cbn;
    rewrite <- !app_assoc; reflexivity.
Qed.

End SignIn.

Section SignInClaims.

Import LoginPage.

Variable backend : request_config -> net_result.

(** C2, as amended. When the [login/] call is rejected or faults,
    [handleLogin] itself writes nothing: the storage it leaves is the one
    [API.post] left.  That is the storage from before the attempt, unless
    the rejection carries status 401, in which case the response handler
    has removed [access_token] and [refresh_token] and nothing else. *)
Theorem failed_login_storage
    (c : state) (w : browser) (e : axios_error) :
  API.settle (backend (API.outgoing "login/" (payload c) w)) = inr e ->
  localStorage (fire (handleLogin backend) c w).2
  = localStorage (API.post backend "login/" (payload c) c w).2
  /\ ((forall r, response e = Some r -> status r <> 401) ->
      localStorage (fire (handleLogin backend) c w).2 = localStorage w)
  /\ (forall r, response e = Some r -> status r = 401 ->
      localStorage (fire (handleLogin backend) c w).2
      = delete "refresh_token" (delete "access_token" (localStorage w)))
  /\ (forall k : string, k <> "access_token" -> k <> "refresh_token" ->
      localStorage (fire (handleLogin backend) c w).2 !! k = localStorage w !! k).
Proof.
  intros He. rewrite (handleLogin_rejected backend c w e He).
  rewrite post_eq, (send_rejected backend _ e c w He). cbn [snd localStorage].
  split; [reflexivity|].
  destruct (response e) as [r|].
  - destruct (Z.eqb_spec (status r) 401) as [H401|H401].
    + split; [intros H; destruct (H r eq_refl H401)|].
      split; [reflexivity|].
      intros k Ha Hf. rewrite !lookup_delete_ne by congruence. reflexivity.
    + split; [reflexivity|]. split; [|reflexivity].
      intros r' [= <-] H. contradiction.
  - split; [reflexivity|]. split; [discriminate | reflexivity].
Qed.

(** C4, as amended. When [login/] answers with a body that has an
    [access] field and no [refresh] field, the only change to the storage
    is that [access_token] now holds that access token; the
    [refresh_token] entry is the one from before the attempt, absent
    exactly when it was absent then. *)
Theorem access_only_login_storage
    (c : state) (w : browser) (r : http_response) (fields : object) (a : string) :
  API.settle (backend (API.outgoing "login/" (payload c) w)) = inl r ->
  data r = Some fields ->
  fields !! "access" = Some a ->
  fields !! "refresh" = None ->
  localStorage (fire (handleLogin backend) c w).2
  = <["access_token" := a]> (localStorage w)
  /\ localStorage (fire (handleLogin backend) c w).2 !! "access_token" = Some a
  /\ localStorage (fire (handleLogin backend) c w).2 !! "refresh_token"
     = localStorage w !! "refresh_token".
Proof.
  intros Hr Hd Ha Hf. rewrite (handleLogin_fulfilled backend c w r fields Hr Hd).
  cbn [snd localStorage]. rewrite Ha, Hf. cbn [JS.truthy JS.to_string id].
  split; [reflexivity|]. split.
  - apply lookup_insert_eq.
  - apply lookup_insert_ne. discriminate.
Qed.

End SignInClaims.

Lemma failed_login_storage_witness :
  API.settle
    (Scenario.answers Scenario.unauthorized
       (API.outgoing "login/" (LoginPage.payload Scenario.alice_wrong)
          Scenario.signed_in))
  = inr {| response := Some Scenario.unauthorized |}
  /\ status Scenario.unauthorized = 401
  /\ localStorage
       (LoginPage.fire
          (LoginPage.handleLogin (Scenario.answers Scenario.unauthorized))
          Scenario.alice_wrong Scenario.signed_in).2
     = delete "refresh_token"
         (delete "access_token" (localStorage Scenario.signed_in)).
Proof.
  split; [reflexivity|]. split; [reflexivity|].
  apply (proj1 (proj2 (proj2
           (failed_login_storage (Scenario.answers Scenario.unauthorized)
              Scenario.alice_wrong Scenario.signed_in
              {| response := Some Scenario.unauthorized |} eq_refl)))
           Scenario.unauthorized); reflexivity.
Defined.

(** C2 as first stated fails: a sign-in attempt from a browser that still
    holds a session, answered with status 401, fails and leaves the
    storage empty, not as it was. *)
Lemma rejected_login_401_clears_storage :
  API.settle
    (Scenario.answers Scenario.unauthorized
       (API.outgoing "login/" (LoginPage.payload Scenario.alice_wrong)
          Scenario.signed_in))
  = inr {| response := Some Scenario.unauthorized |}
  /\ localStorage Scenario.signed_in !! "access_token" = Some "A1"
  /\ localStorage Scenario.signed_in !! "refresh_token" = Some "R1"
  /\ localStorage
       (LoginPage.fire
          (LoginPage.handleLogin (Scenario.answers Scenario.unauthorized))
          Scenario.alice_wrong Scenario.signed_in).2 !! "access_token" = None
  /\ localStorage
       (LoginPage.fire
          (LoginPage.handleLogin (Scenario.answers Scenario.unauthorized))
          Scenario.alice_wrong Scenario.signed_in).2 !! "refresh_token" = None
  /\ localStorage
       (LoginPage.fire
          (LoginPage.handleLogin (Scenario.answers Scenario.unauthorized))
          Scenario.alice_wrong Scenario.signed_in).2
     <> localStorage Scenario.signed_in.
Proof.
  repeat (split; [vm_compute; reflexivity|]).
  intros H. apply (f_equal (fun m : gmap string string => m !! "access_token")) in H.
  vm_compute in H. discriminate H.
Qed.

Example rejected_login_400_run :
  LoginPage.fire (LoginPage.handleLogin (Scenario.answers Scenario.bad_request))
    Scenario.alice_wrong Scenario.signed_in
  = (Normal tt,
     LoginPage.settled Scenario.alice_wrong "Invalid credentials",
     {| localStorage := localStorage Scenario.signed_in;
        effects :=
          [EPreventDefault;
           EDispatch
             {| url := "login/"; method := "post";
                headers := {[ "Content-Type" := "application/json";
                              "Authorization" := "Bearer A1" ]};
                body := {[ "username" := "alice"; "password" := "wrong" ]} |}] |}).
Proof. vm_compute. reflexivity. Qed.

Example rejected_login_fault_run :
  LoginPage.fire (LoginPage.handleLogin (fun _ => NetFault))
    Scenario.alice_wrong Scenario.fresh
  = (Normal tt,
     LoginPage.settled Scenario.alice_wrong
       "Login failed. Check your credentials and 2FA token.",
     {| localStorage := ∅;
        effects :=
          [EPreventDefault;
           EDispatch
             {| url := "login/"; method := "post";
                headers := {[ "Content-Type" := "application/json" ]};
                body := {[ "username" := "alice"; "password" := "wrong" ]} |}] |}).
Proof. vm_compute. reflexivity. Qed.

Lemma access_only_login_storage_witness :
  API.settle
    (Scenario.answers (Scenario.ok {[ "access" := "A2" ]})
       (API.outgoing "login/" (LoginPage.payload Scenario.alice_2fa)
          Scenario.fresh))
  = inl (Scenario.ok {[ "access" := "A2" ]})
  /\ localStorage
       (LoginPage.fire
          (LoginPage.handleLogin
             (Scenario.answers (Scenario.ok {[ "access" := "A2" ]})))
          Scenario.alice_2fa Scenario.fresh).2 !! "access_token" = Some "A2"
  /\ localStorage
       (LoginPage.fire
          (LoginPage.handleLogin
             (Scenario.answers (Scenario.ok {[ "access" := "A2" ]})))
          Scenario.alice_2fa Scenario.fresh).2 !! "refresh_token"
     = localStorage Scenario.fresh !! "refresh_token".
Proof.
  split; [reflexivity|].
  apply (access_only_login_storage
           (Scenario.answers (Scenario.ok {[ "access" := "A2" ]}))
           Scenario.alice_2fa Scenario.fresh
           (Scenario.ok {[ "access" := "A2" ]}) {[ "access" := "A2" ]} "A2");
    reflexivity.
Defined.

(** C4 as first stated fails: from a browser that still holds a refresh
    token, a sign-in answered with an access token only leaves that old
    refresh token in the storage. *)
Lemma access_only_login_keeps_stale_refresh :
  API.settle
    (Scenario.answers (Scenario.ok {[ "access" := "A2" ]})
       (API.outgoing "login/" (LoginPage.payload Scenario.alice_2fa)
          Scenario.stale_refresh))
  = inl (Scenario.ok {[ "access" := "A2" ]})
  /\ data (Scenario.ok {[ "access" := "A2" ]}) = Some {[ "access" := "A2" ]}
  /\ ({[ "access" := "A2" ]} : gmap string string) !! "refresh" = None
  /\ localStorage
       (LoginPage.fire
          (LoginPage.handleLogin
             (Scenario.answers (Scenario.ok {[ "access" := "A2" ]})))
          Scenario.alice_2fa Scenario.stale_refresh).2 !! "access_token" = Some "A2"
  /\ localStorage
       (LoginPage.fire
          (LoginPage.handleLogin
             (Scenario.answers (Scenario.ok {[ "access" := "A2" ]})))
          Scenario.alice_2fa Scenario.stale_refresh).2 !! "refresh_token" = Some "R0".
Proof. repeat split; vm_compute; reflexivity. Qed.

Section SignInPayload.

Import LoginPage.

Variable backend : request_config -> net_result.

(** An accepted [login/] call with a [null] body: reading [data.access]
    throws, the catch branch shows the fallback message, and nothing is
    written. *)
Lemma handleLogin_null_body (c : state) (w : browser) (r : http_response) :
  API.settle (backend (API.outgoing "login/" (payload c) w)) = inl r ->
  data r = None ->
  fire (handleLogin backend) c w
  = (Normal tt,
     settled c "Login failed. Check your credentials and 2FA token.",
     {| localStorage := localStorage w;
        effects :=
          effects w ++ [EPreventDefault;
                        EDispatch (API.outgoing "login/" (payload c) w)] |}).
Proof.
  intros Hr Hd. unfold fire, handleLogin, try_finally, try_catch.
  unfold bind at 1 2 3. cbn [preventDefault emit setIsSubmitting setError set_state].
  unfold bind at 1. rewrite post_eq.
  change (API.outgoing "login/" (payload c)
            {| localStorage := localStorage w;
               effects := effects w ++ [EPreventDefault] |})
    with (API.outgoing "login/" (payload c) w).
  rewrite (send_fulfilled backend _ r _ _ Hr).
  rewrite Hd. cbn. rewrite <- app_assoc. reflexivity.
Qed.

(** Every submission sends exactly one request. *)
Lemma handleLogin_dispatches (c : state) (w : browser) :
  dispatched (since w (fire (handleLogin backend) c w).2)
  = [API.outgoing "login/" (payload c) w].
Proof.
  destruct (API.settle (backend (API.outgoing "login/" (payload c) w)))
    as [r|e] eqn:E.
  - destruct (data r) as [fields|] eqn:D.
    + rewrite (handleLogin_fulfilled backend c w r fields E D).
      cbn [snd]. rewrite since_app. reflexivity.
    + rewrite (handleLogin_null_body c w r E D).
      cbn [snd]. rewrite since_app. reflexivity.
  - rewrite (handleLogin_rejected backend c w e E).
    cbn [snd]. rewrite since_app. reflexivity.
Qed.

Lemma payload_lookup (c : state) (k : string) :
  payload c !! k
  = if bool_decide (k = "token")
    then (if JS.truthy_string (JS.trim (token c))
          then Some (JS.trim (token c)) else None)
    else if bool_decide (k = "username") then Some (JS.trim (username c))
    else if bool_decide (k = "password") then Some (password c)
    else None.
Proof.
  unfold payload.
  destruct (JS.truthy_string (JS.trim (token c)));
    repeat case_bool_decide; simplify_map_eq; reflexivity.
Qed.

(** C7. Every submission of the sign-in form sends one request, to
    [login/], whose body holds the trimmed username under [username], the
    password as typed under [password], and nothing else except that the
    trimmed second-factor code is there under [token] when it is not empty;
    when it is empty the body has no [token] field at all. *)
Theorem login_payload_sent (c : state) (w : browser) :
  dispatched (since w (fire (handleLogin backend) c w).2)
  = [API.outgoing "login/" (payload c) w]
  /\ url (API.outgoing "login/" (payload c) w) = "login/"
  /\ body (API.outgoing "login/" (payload c) w) = payload c
  /\ payload c !! "username" = Some (JS.trim (username c))
  /\ payload c !! "password" = Some (password c)
  /\ (JS.trim (token c) <> "" -> payload c !! "token" = Some (JS.trim (token c)))
  /\ (JS.trim (token c) = "" -> payload c !! "token" = None)
  /\ (forall k : string,
        k <> "username" -> k <> "password" -> k <> "token" ->
        payload c !! k = None).
Proof.
  split; [apply handleLogin_dispatches|].
  split; [apply outgoing_url|].
  split; [apply outgoing_body|].
  split; [rewrite payload_lookup; reflexivity|].
  split; [rewrite payload_lookup; reflexivity|].
  split; [|split].
  - intros Hne. rewrite payload_lookup. cbn.
    rewrite (truthy_string_nonempty _ Hne). reflexivity.
  - intros He. rewrite payload_lookup. cbn. rewrite He. reflexivity.
  - intros k Hu Hp Ht. rewrite payload_lookup.
    repeat case_bool_decide; congruence.
Qed.

End SignInPayload.

Lemma login_payload_sent_witness :
  JS.trim (LoginPage.token Scenario.alice_2fa) <> ""
  /\ LoginPage.payload Scenario.alice_2fa !! "token" = Some "123456"
  /\ JS.trim (LoginPage.token Scenario.alice_wrong) = ""
  /\ LoginPage.payload Scenario.alice_wrong !! "token" = None.
Proof.
  split; [discriminate|]. split.
  - apply (proj1 (proj2 (proj2 (proj2 (proj2 (proj2
             (login_payload_sent (Scenario.answers Scenario.unauthorized)
                Scenario.alice_2fa Scenario.fresh))))))).
    discriminate.
  - split; [reflexivity|].
    apply (proj1 (proj2 (proj2 (proj2 (proj2 (proj2 (proj2
             (login_payload_sent (Scenario.answers Scenario.unauthorized)
                Scenario.alice_wrong Scenario.fresh)))))))).
    reflexivity.
Defined.

Example login_payload_alice_2fa :
  LoginPage.payload Scenario.alice_2fa
  = {[ "username" := "alice"; "password" := "s3cret pw"; "token" := "123456" ]}.
Proof. vm_compute. reflexivity. Qed.

Example login_payload_alice_wrong :
  LoginPage.payload Scenario.alice_wrong
  = {[ "username" := "alice"; "password" := "wrong" ]}.
Proof. vm_compute. reflexivity. Qed.

(** ** Password reset: which forms are shown *)

Section ResetView.

Import ForgotPassword.

Variable query : URLSearchParams.

Lemma forms_render (c : state) :
  forms (render query c)
  = if showConfirm query then [SubmitConfirm] else [SubmitRequest; SubmitConfirm].
Proof.
  unfold render. destruct (showConfirm query); cbn;
    unfold paragraph_if; repeat destruct (JS.truthy_string _); reflexivity.
Qed.

Lemma showConfirm_spec :
  showConfirm query = JS.truthy (get query "uid") && JS.truthy (get query "token").
Proof.
  unfold showConfirm, initUid, initToken, JS.and_string, JS.or_else.
  destruct (get query "uid") as [[|a u]|];
    destruct (get query "token") as [[|b t]|]; reflexivity.
Qed.

(** C5, as amended. When the query carries non-empty [uid] and [token]
    the view renders the confirmation form alone; when either is absent or
    empty it renders the request form and, after it, the confirmation form
    (which is rendered always). *)
Theorem reset_view_forms (c : state) :
  (forall u t : string,
     get query "uid" = Some u -> u <> "" ->
     get query "token" = Some t -> t <> "" ->
     forms (render query c) = [SubmitConfirm])
  /\ (get query "uid" = None \/ get query "uid" = Some ""
      \/ get query "token" = None \/ get query "token" = Some "" ->
      forms (render query c) = [SubmitRequest; SubmitConfirm]).
Proof.
  rewrite forms_render, showConfirm_spec. split.
  - intros u t -> Hu -> Ht. cbn.
    rewrite (truthy_string_nonempty u Hu), (truthy_string_nonempty t Ht).
    reflexivity.
  - intros [-> | [-> | [-> | ->]]]; cbn; rewrite ?andb_false_r; reflexivity.
Qed.

End ResetView.

Lemma reset_view_forms_witness :
  ForgotPassword.get Scenario.link_query "uid" = Some "MQ"
  /\ ForgotPassword.get Scenario.link_query "token" = Some "c9x-41f"
  /\ ForgotPassword.forms
       (ForgotPassword.render Scenario.link_query
          (ForgotPassword.initial_state Scenario.link_query))
     = [ForgotPassword.SubmitConfirm]
  /\ ForgotPassword.get Scenario.bare_query "uid" = None
  /\ ForgotPassword.forms
       (ForgotPassword.render Scenario.bare_query
          (ForgotPassword.initial_state Scenario.bare_query))
     = [ForgotPassword.SubmitRequest; ForgotPassword.SubmitConfirm].
Proof.
  split; [reflexivity|]. split; [reflexivity|]. split.
  - apply (proj1 (reset_view_forms Scenario.link_query
                    (ForgotPassword.initial_state Scenario.link_query))
             "MQ" "c9x-41f"); [reflexivity|discriminate|reflexivity|discriminate].
  - split; [reflexivity|].
    apply (proj2 (reset_view_forms Scenario.bare_query
                    (ForgotPassword.initial_state Scenario.bare_query))).
    left. reflexivity.
Defined.

(** C5 as first stated fails: opened without [uid] and [token], the view
    does not show the request form alone; the confirmation form is in the
    rendered tree as well. *)
Lemma bare_reset_view_shows_both_forms :
  ForgotPassword.get Scenario.bare_query "uid" = None
  /\ ForgotPassword.get Scenario.bare_query "token" = None
  /\ ForgotPassword.forms
       (ForgotPassword.render Scenario.bare_query
          (ForgotPassword.initial_state Scenario.bare_query))
     = [ForgotPassword.SubmitRequest; ForgotPassword.SubmitConfirm]
  /\ ForgotPassword.forms
       (ForgotPassword.render Scenario.bare_query
          (ForgotPassword.initial_state Scenario.bare_query))
     <> [ForgotPassword.SubmitRequest].
Proof. repeat split; try reflexivity. discriminate. Qed.

(** ** Password reset: confirmation *)

Section ResetConfirm.

Import ForgotPassword.

Variable backend : request_config -> net_result.

(** The local check fails: nothing leaves the client. *)
Lemma submitConfirm_mismatch (c : state) (w : browser) :
  password c <> confirm c ->
  fire (submitConfirm backend) c w
  = (Normal tt, confirm_settled c "" "Passwords do not match.",
     {| localStorage := localStorage w;
        effects := effects w ++ [EPreventDefault] |}).
Proof.
  intros Hne. unfold fire, submitConfirm.
  rewrite (bool_decide_eq_true_2 _ Hne). reflexivity.
Qed.

(** The backend accepts the confirmation. *)
Lemma submitConfirm_accepted (c : state) (w : browser) (r : http_response) :
  password c = confirm c ->
  API.settle (backend (API.outgoing "password-reset-confirm/" (confirm_body c) w))
  = inl r ->
  fire (submitConfirm backend) c w
  = (Normal tt, confirm_settled c "Password updated. You can now sign in." "",
     {| localStorage := localStorage w;
        effects :=
          effects w
          ++ [EPreventDefault;
              EDispatch (API.outgoing "password-reset-confirm/" (confirm_body c) w);
              ESetTimeout (CbNavigate "/") 1200] |}).
Proof.
  intros Heq Hr. unfold fire, submitConfirm.
  rewrite bool_decide_eq_false_2 by (intros H; apply H, Heq).
  unfold try_finally, try_catch.
  unfold bind at 1 2 3 4.
  cbn [preventDefault emit setIsConfirming setConfirmError setConfirmStatus set_state].
  unfold bind at 1. rewrite post_eq.
  change (API.outgoing "password-reset-confirm/" _
            {| localStorage := localStorage w;
               effects := effects w ++ [EPreventDefault] |})
    with (API.outgoing "password-reset-confirm/" (confirm_body c) w).
  rewrite (send_fulfilled backend _ r _ _ Hr).
  cbn. rewrite <- !app_assoc. reflexivity.
Qed.

(** The backend rejects the confirmation, or the request faults. *)
Lemma submitConfirm_rejected (c : state) (w : browser) (e : axios_error) :
  password c = confirm c ->
  API.settle (backend (API.outgoing "password-reset-confirm/" (confirm_body c) w))
  = inr e ->
  fire (submitConfirm backend) c w
  = (Normal tt,
     confirm_settled c ""
       (JS.or_else (error_message (AxiosError e)) "Unable to reset password."),
     {| localStorage :=
          match response e with
          | Some r =>
              if status r =? 401
              then delete "refresh_token" (delete "access_token" (localStorage w))
              else localStorage w
          | None => localStorage w
          end;
        effects :=
          effects w
          ++ [EPreventDefault;
              EDispatch (API.outgoing "password-reset-confirm/" (confirm_body c) w)] |}).
Proof.
  intros Heq He. unfold fire, submitConfirm.
  rewrite bool_decide_eq_false_2 by (intros H; apply H, Heq).
  unfold try_finally, try_catch.
  unfold bind at 1 2 3 4.
  cbn [preventDefault emit setIsConfirming setConfirmError setConfirmStatus set_state].
  unfold bind at 1. rewrite post_eq.
  change (API.outgoing "password-reset-confirm/" _
            {| localStorage := localStorage w;
               effects := effects w ++ [EPreventDefault] |})
    with (API.outgoing "password-reset-confirm/" (confirm_body c) w).
  rewrite (send_rejected backend _ e _ _ He).
  cbn. rewrite <- !app_assoc. reflexivity.
Qed.

End ResetConfirm.

Section ResetConfirmClaims.

Import ForgotPassword.

Variable backend : request_config -> net_result.
Variable query : URLSearchParams.

(** The rendered paragraphs: those of the request form when it is shown,
    then the confirmation status, then the confirmation error. *)
Lemma paragraphs_render (c : state) :
  paragraphs (render query c)
  = paragraphs
      (if negb (showConfirm query)
       then VForm SubmitRequest
              [paragraph_if "#0f5a44" (requestStatus c);
               paragraph_if "#b00020" (requestError c)]
       else VNothing)
    ++ paragraphs (paragraph_if "#0f5a44" (confirmStatus c))
    ++ paragraphs (paragraph_if "#b00020" (confirmError c)).
Proof.
  unfold render. destruct (negb (showConfirm query));
    cbn [paragraphs flat_map app]; rewrite ?app_nil_r; reflexivity.
Qed.

Lemma paragraph_if_nonempty (color text : string) :
  text <> "" -> paragraphs (paragraph_if color text) = [text].
Proof.
  intros Hne. unfold paragraph_if. rewrite (truthy_string_nonempty _ Hne).
  reflexivity.
Qed.

Lemma confirmError_displayed (c : state) :
  confirmError c <> "" -> confirmError c ∈ paragraphs (render query c).
Proof.
  intros Hne. rewrite paragraphs_render, !elem_of_app. right. right.
  rewrite (paragraph_if_nonempty _ _ Hne). apply list_elem_of_here.
Qed.

Lemma confirmStatus_displayed (c : state) :
  confirmStatus c <> "" -> confirmStatus c ∈ paragraphs (render query c).
Proof.
  intros Hne. rewrite paragraphs_render, !elem_of_app. right. left.
  rewrite (paragraph_if_nonempty _ _ Hne). apply list_elem_of_here.
Qed.

(** C6. When the two passwords differ, a confirmation submission sends
    nothing to the backend, sets the error to exactly
    ["Passwords do not match."] (which the view then displays) and leaves
    the pending flag down; a submission that does send a request is one
    whose two passwords are equal. *)
Theorem password_mismatch_fails_fast (c : state) (w : browser) :
  (password c <> confirm c ->
   dispatched (since w (fire (submitConfirm backend) c w).2) = []
   /\ confirmError (fire (submitConfirm backend) c w).1.2 = "Passwords do not match."
   /\ isConfirming (fire (submitConfirm backend) c w).1.2 = false
   /\ "Passwords do not match."
        ∈ paragraphs (render query (fire (submitConfirm backend) c w).1.2))
  /\ (dispatched (since w (fire (submitConfirm backend) c w).2) <> [] ->
      password c = confirm c).
Proof.
  split.
  - intros Hne. rewrite (submitConfirm_mismatch backend c w Hne).
    cbn [fst snd]. rewrite since_app.
    split; [reflexivity|]. split; [reflexivity|]. split; [reflexivity|].
    apply (confirmError_displayed (confirm_settled c "" "Passwords do not match.")).
    discriminate.
  - intros Hsent. destruct (decide (password c = confirm c)) as [Heq|Hne];
      [exact Heq|].
    exfalso. apply Hsent. rewrite (submitConfirm_mismatch backend c w Hne).
    cbn [snd]. rewrite since_app. reflexivity.
Qed.

(** C9. When the two passwords are equal and the backend accepts the
    confirmation, the status becomes the success message, the view displays
    it, and one timer is set, with a delay of 1200 ms; nothing navigates at
    once, and when that timer fires its callback does one thing: it
    navigates to ["/"].  When the passwords differ, or the backend rejects
    or the request faults, no timer is set and nothing navigates. *)
Theorem accepted_reset_schedules_sign_in (c : state) (w : browser) :
  (forall r : http_response,
     password c = confirm c ->
     API.settle
       (backend (API.outgoing "password-reset-confirm/" (confirm_body c) w))
     = inl r ->
     confirmStatus (fire (submitConfirm backend) c w).1.2
     = "Password updated. You can now sign in."
     /\ "Password updated. You can now sign in."
          ∈ paragraphs (render query (fire (submitConfirm backend) c w).1.2)
     /\ scheduled (since w (fire (submitConfirm backend) c w).2)
        = [(CbNavigate "/", 1200)]
     /\ navigations (since w (fire (submitConfirm backend) c w).2) = []
     /\ (forall (cb : callback) (delay : Z) (s0 : state) (w0 : browser),
           (cb, delay)
             ∈ scheduled (since w (fire (submitConfirm backend) c w).2) ->
           delay = 1200
           /\ run_callback cb s0 w0
              = (Normal tt, s0,
                 {| localStorage := localStorage w0;
                    effects := effects w0 ++ [ENavigate "/"] |})))
  /\ (password c <> confirm c
      \/ (exists e : axios_error,
            API.settle
              (backend (API.outgoing "password-reset-confirm/" (confirm_body c) w))
            = inr e) ->
      scheduled (since w (fire (submitConfirm backend) c w).2) = []
      /\ navigations (since w (fire (submitConfirm backend) c w).2) = []).
Proof.
  split.
  - intros r Heq Hr. rewrite (submitConfirm_accepted backend c w r Heq Hr).
    cbn [fst snd]. rewrite since_app.
    split; [reflexivity|]. split; [|split; [reflexivity|split; [reflexivity|]]].
    + apply (confirmStatus_displayed
               (confirm_settled c "Password updated. You can now sign in." "")).
      discriminate.
    + intros cb delay s0 w0 H. cbn in H. apply list_elem_of_singleton in H.
      assert (cb = CbNavigate "/") as -> by congruence.
      split; [congruence | reflexivity].
  - intros Hfail. destruct (decide (password c = confirm c)) as [Heq|Hne].
    + destruct Hfail as [Hne | [e He]]; [contradiction|].
      rewrite (submitConfirm_rejected backend c w e Heq He).
      cbn [snd]. rewrite since_app. split; reflexivity.
    + rewrite (submitConfirm_mismatch backend c w Hne).
      cbn [snd]. rewrite since_app. split; reflexivity.
Qed.

End ResetConfirmClaims.

Lemma password_mismatch_fails_fast_witness :
  ForgotPassword.password Scenario.mismatch <> ForgotPassword.confirm Scenario.mismatch
  /\ dispatched
       (since Scenario.fresh
          (ForgotPassword.fire
             (ForgotPassword.submitConfirm (Scenario.answers (Scenario.ok ∅)))
             Scenario.mismatch Scenario.fresh).2)
     = []
  /\ ForgotPassword.confirmError
       (ForgotPassword.fire
          (ForgotPassword.submitConfirm (Scenario.answers (Scenario.ok ∅)))
          Scenario.mismatch Scenario.fresh).1.2
     = "Passwords do not match.".
Proof.
  split; [discriminate|].
  pose proof (proj1 (password_mismatch_fails_fast
                       (Scenario.answers (Scenario.ok ∅)) Scenario.link_query
                       Scenario.mismatch Scenario.fresh)) as H.
  split; apply H; discriminate.
Defined.

Example mismatch_run :
  ForgotPassword.fire
    (ForgotPassword.submitConfirm (Scenario.answers (Scenario.ok ∅)))
    Scenario.mismatch Scenario.fresh
  = (Normal tt,
     ForgotPassword.confirm_settled Scenario.mismatch "" "Passwords do not match.",
     {| localStorage := ∅; effects := [EPreventDefault] |}).
Proof. vm_compute. reflexivity. Qed.

Lemma accepted_reset_schedules_sign_in_witness :
  ForgotPassword.password Scenario.matching = ForgotPassword.confirm Scenario.matching
  /\ API.settle
       (Scenario.answers (Scenario.ok ∅)
          (API.outgoing "password-reset-confirm/"
             (ForgotPassword.confirm_body Scenario.matching) Scenario.fresh))
     = inl (Scenario.ok ∅)
  /\ scheduled
       (since Scenario.fresh
          (ForgotPassword.fire
             (ForgotPassword.submitConfirm (Scenario.answers (Scenario.ok ∅)))
             Scenario.matching Scenario.fresh).2)
     = [(CbNavigate "/", 1200)]
  /\ run_callback (CbNavigate "/") Scenario.matching Scenario.fresh
     = (Normal tt, Scenario.matching,
        {| localStorage := localStorage Scenario.fresh;
           effects := effects Scenario.fresh ++ [ENavigate "/"] |})
  /\ ForgotPassword.password Scenario.mismatch <> ForgotPassword.confirm Scenario.mismatch
  /\ scheduled
       (since Scenario.fresh
          (ForgotPassword.fire
             (ForgotPassword.submitConfirm (Scenario.answers (Scenario.ok ∅)))
             Scenario.mismatch Scenario.fresh).2)
     = [].
Proof.
  split; [reflexivity|]. split; [reflexivity|].
  pose proof (proj1 (accepted_reset_schedules_sign_in
                       (Scenario.answers (Scenario.ok ∅)) Scenario.link_query
                       Scenario.matching Scenario.fresh) (Scenario.ok ∅)
                eq_refl eq_refl) as [_ [_ [Hs [_ Hcb]]]].
  split; [exact Hs|]. split.
  - apply (Hcb (CbNavigate "/") 1200 Scenario.matching Scenario.fresh).
    rewrite Hs. apply list_elem_of_here.
  - split; [discriminate|].
    apply (proj2 (accepted_reset_schedules_sign_in
                    (Scenario.answers (Scenario.ok ∅)) Scenario.link_query
                    Scenario.mismatch Scenario.fresh)).
    left. discriminate.
Defined.

Example matching_run :
  ForgotPassword.fire
    (ForgotPassword.submitConfirm (Scenario.answers (Scenario.ok ∅)))
    Scenario.matching Scenario.fresh
  = (Normal tt,
     ForgotPassword.confirm_settled Scenario.matching
       "Password updated. You can now sign in." "",
     {| localStorage := ∅;
        effects :=
          [EPreventDefault;
           EDispatch
             {| url := "password-reset-confirm/"; method := "post";
                headers := {[ "Content-Type" := "application/json" ]};
                body := {[ "uid" := "MQ"; "token" := "c9x-41f";
                           "new_password" := "abc12345" ]} |};
           ESetTimeout (CbNavigate "/") 1200] |}).
Proof. vm_compute. reflexivity. Qed.

Example timer_fires :
  effects (run_callback (CbNavigate "/") tt Scenario.fresh).2 = [ENavigate "/"].
Proof. reflexivity. Qed.

(** ** Password reset: request *)

Section ResetRequest.

Import ForgotPassword.

Variable backend : request_config -> net_result.

(** The backend accepts the reset request: the status is the message or
    the generic text, and each of [uid] and [token] is replaced by the
    response field when that field is truthy. *)
Lemma submitRequest_accepted (c : state) (w : browser) (r : http_response) :
  API.settle (backend (API.outgoing "password-reset-request/" (request_body c) w))
  = inl r ->
  fire (submitRequest backend) c w
  = (Normal tt,
     request_settled c
       (JS.or_else (opt_field (data r) "message")
          "If an account exists for that email, a reset link will be sent.")
       ""
       (JS.or_else (opt_field (data r) "uid") (uid c))
       (JS.or_else (opt_field (data r) "token") (token c)),
     {| localStorage := localStorage w;
        effects :=
          effects w
          ++ [EPreventDefault;
              EDispatch (API.outgoing "password-reset-request/" (request_body c) w)] |}).
Proof.
  intros Hr. unfold fire, submitRequest, try_finally, try_catch.
  unfold bind at 1 2 3 4.
  cbn [preventDefault emit setIsRequesting setRequestError setRequestStatus set_state].
  unfold bind at 1. rewrite post_eq.
  change (API.outgoing "password-reset-request/" _
            {| localStorage := localStorage w;
               effects := effects w ++ [EPreventDefault] |})
    with (API.outgoing "password-reset-request/" (request_body c) w).
  rewrite (send_fulfilled backend _ r _ _ Hr).
  unfold when_truthy, JS.or_else.
  destruct (opt_field (data r) "uid") as [[|a u]|];
    destruct (opt_field (data r) "token") as [[|b t]|];
    cbn; rewrite <- !app_assoc; reflexivity.
Qed.

(** The backend rejects the reset request, or the request faults. *)
Lemma submitRequest_rejected (c : state) (w : browser) (e : axios_error) :
  API.settle (backend (API.outgoing "password-reset-request/" (request_body c) w))
  = inr e ->
  fire (submitRequest backend) c w
  = (Normal tt,
     request_settled c ""
       (JS.or_else (error_message (AxiosError e)) "Unable to submit request.")
       (uid c) (token c),
     {| localStorage :=
          match response e with
          | Some r =>
              if status r =? 401
              then delete "refresh_token" (delete "access_token" (localStorage w))
              else localStorage w
          | None => localStorage w
          end;
        effects :=
          effects w
          ++ [EPreventDefault;
              EDispatch (API.outgoing "password-reset-request/" (request_body c) w)] |}).
Proof.
  intros He. unfold fire, submitRequest, try_finally, try_catch.
  unfold bind at 1 2 3 4.
  cbn [preventDefault emit setIsRequesting setRequestError setRequestStatus set_state].
  unfold bind at 1. rewrite post_eq.
  change (API.outgoing "password-reset-request/" _
            {| localStorage := localStorage w;
               effects := effects w ++ [EPreventDefault] |})
    with (API.outgoing "password-reset-request/" (request_body c) w).
  rewrite (send_rejected backend _ e _ _ He).
  cbn. rewrite <- !app_assoc. reflexivity.
Qed.

Lemma submitRequest_dispatches (c : state) (w : browser) :
  dispatched (since w (fire (submitRequest backend) c w).2)
  = [API.outgoing "password-reset-request/" (request_body c) w].
Proof.
  destruct (API.settle
              (backend (API.outgoing "password-reset-request/" (request_body c) w)))
    as [r|e] eqn:E.
  - rewrite (submitRequest_accepted c w r E). cbn [snd]. rewrite since_app.
    reflexivity.
  - rewrite (submitRequest_rejected c w e E). cbn [snd]. rewrite since_app.
    reflexivity.
Qed.

Lemma or_else_nonempty (v : option string) (fallback s : string) :
  v = Some s -> s <> "" -> JS.or_else v fallback = s.
Proof.
  intros -> Hne. unfold JS.or_else. rewrite (truthy_string_nonempty s Hne).
  reflexivity.
Qed.

Lemma or_else_falsy (v : option string) (fallback : string) :
  v = None \/ v = Some "" -> JS.or_else v fallback = fallback.
Proof. intros [-> | ->]; reflexivity. Qed.

End ResetRequest.

Section ResetRequestClaims.

Import ForgotPassword.

Variable backend : request_config -> net_result.

(** C8, as amended. A reset-request submission sends one request, to
    [password-reset-request/], whose body is the trimmed email and nothing
    else.  When the backend accepts it, the status shown is the [message]
    of the response if that is present and not empty, and the generic text
    otherwise; a [uid] or [token] field of the response that is present and
    not empty becomes the value of the corresponding confirmation field. *)
Theorem reset_request_submission (c : state) (w : browser) :
  dispatched (since w (fire (submitRequest backend) c w).2)
  = [API.outgoing "password-reset-request/" (request_body c) w]
  /\ url (API.outgoing "password-reset-request/" (request_body c) w)
     = "password-reset-request/"
  /\ body (API.outgoing "password-reset-request/" (request_body c) w)
     = {[ "email" := JS.trim (email c) ]}
  /\ (forall r : http_response,
        API.settle
          (backend (API.outgoing "password-reset-request/" (request_body c) w))
        = inl r ->
        (forall m : string,
           opt_field (data r) "message" = Some m -> m <> "" ->
           requestStatus (fire (submitRequest backend) c w).1.2 = m)
        /\ (opt_field (data r) "message" = None
            \/ opt_field (data r) "message" = Some "" ->
            requestStatus (fire (submitRequest backend) c w).1.2
            = "If an account exists for that email, a reset link will be sent.")
        /\ (forall u : string,
              opt_field (data r) "uid" = Some u -> u <> "" ->
              uid (fire (submitRequest backend) c w).1.2 = u)
        /\ (forall t : string,
              opt_field (data r) "token" = Some t -> t <> "" ->
              token (fire (submitRequest backend) c w).1.2 = t)).
Proof.
  split; [apply submitRequest_dispatches|].
  split; [apply outgoing_url|].
  split; [apply outgoing_body|].
  intros r Hr. rewrite (submitRequest_accepted backend c w r Hr).
  cbn [fst snd requestStatus uid token request_settled].
  split; [|split; [|split]].
  - intros m Hm Hne. exact (or_else_nonempty _ _ m Hm Hne).
  - intros H. exact (or_else_falsy _ _ H).
  - intros u Hu Hne. exact (or_else_nonempty _ _ u Hu Hne).
  - intros t Ht Hne. exact (or_else_nonempty _ _ t Ht Hne).
Qed.

(** C10. After an accepted reset request each of the [uid] and [token]
    confirmation fields depends on its own response field only: it takes
    the value of that field when the field is present and not empty, and
    keeps the value it held when the field is absent or empty.  So a
    response with a [uid] and no [token] overwrites [uid] alone. *)
Theorem reset_request_updates_pair_independently
    (c : state) (w : browser) (r : http_response) :
  API.settle (backend (API.outgoing "password-reset-request/" (request_body c) w))
  = inl r ->
  (forall u : string,
     opt_field (data r) "uid" = Some u -> u <> "" ->
     uid (fire (submitRequest backend) c w).1.2 = u)
  /\ (opt_field (data r) "uid" = None \/ opt_field (data r) "uid" = Some "" ->
      uid (fire (submitRequest backend) c w).1.2 = uid c)
  /\ (forall t : string,
        opt_field (data r) "token" = Some t -> t <> "" ->
        token (fire (submitRequest backend) c w).1.2 = t)
  /\ (opt_field (data r) "token" = None \/ opt_field (data r) "token" = Some "" ->
      token (fire (submitRequest backend) c w).1.2 = token c).
Proof.
  intros Hr. rewrite (submitRequest_accepted backend c w r Hr).
  cbn [fst snd uid token request_settled].
  split; [|split; [|split]].
  - intros u Hu Hne. exact (or_else_nonempty _ _ u Hu Hne).
  - intros H. exact (or_else_falsy _ _ H).
  - intros t Ht Hne. exact (or_else_nonempty _ _ t Ht Hne).
  - intros H. exact (or_else_falsy _ _ H).
Qed.

End ResetRequestClaims.

Lemma reset_request_submission_witness :
  API.settle
    (Scenario.answers
       (Scenario.ok {[ "message" := "Check your inbox."; "uid" := "MQ" ]})
       (API.outgoing "password-reset-request/"
          (ForgotPassword.request_body Scenario.asking) Scenario.fresh))
  = inl (Scenario.ok {[ "message" := "Check your inbox."; "uid" := "MQ" ]})
  /\ ForgotPassword.requestStatus
       (ForgotPassword.fire
          (ForgotPassword.submitRequest
             (Scenario.answers
                (Scenario.ok {[ "message" := "Check your inbox."; "uid" := "MQ" ]})))
          Scenario.asking Scenario.fresh).1.2
     = "Check your inbox."
  /\ ForgotPassword.uid
       (ForgotPassword.fire
          (ForgotPassword.submitRequest
             (Scenario.answers
                (Scenario.ok {[ "message" := "Check your inbox."; "uid" := "MQ" ]})))
          Scenario.asking Scenario.fresh).1.2
     = "MQ".
Proof.
  split; [reflexivity|].
  pose proof (proj2 (proj2 (proj2
                (reset_request_submission
                   (Scenario.answers
                      (Scenario.ok {[ "message" := "Check your inbox."; "uid" := "MQ" ]}))
                   Scenario.asking Scenario.fresh)))
                (Scenario.ok {[ "message" := "Check your inbox."; "uid" := "MQ" ]})
                eq_refl) as [Hm [_ [Hu _]]].
  split.
  - apply Hm; [reflexivity | discriminate].
  - apply Hu; [reflexivity | discriminate].
Defined.

(** C8 as first stated fails: a response whose [message] and [uid]
    fields are present but empty makes the status the generic text, not
    the supplied message, and leaves the [uid] field as typed. *)
Lemma empty_reset_fields_are_ignored :
  API.settle
    (Scenario.answers (Scenario.ok {[ "message" := ""; "uid" := "" ]})
       (API.outgoing "password-reset-request/"
          (ForgotPassword.request_body Scenario.asking) Scenario.fresh))
  = inl (Scenario.ok {[ "message" := ""; "uid" := "" ]})
  /\ opt_field (data (Scenario.ok {[ "message" := ""; "uid" := "" ]})) "message"
     = Some ""
  /\ opt_field (data (Scenario.ok {[ "message" := ""; "uid" := "" ]})) "uid"
     = Some ""
  /\ ForgotPassword.requestStatus
       (ForgotPassword.fire
          (ForgotPassword.submitRequest
             (Scenario.answers (Scenario.ok {[ "message" := ""; "uid" := "" ]})))
          Scenario.asking Scenario.fresh).1.2
     = "If an account exists for that email, a reset link will be sent."
  /\ ForgotPassword.uid
       (ForgotPassword.fire
          (ForgotPassword.submitRequest
             (Scenario.answers (Scenario.ok {[ "message" := ""; "uid" := "" ]})))
          Scenario.asking Scenario.fresh).1.2
     = "typed-uid".
Proof. repeat split; vm_compute; reflexivity. Qed.

Lemma reset_request_updates_pair_independently_witness :
  API.settle
    (Scenario.answers (Scenario.ok {[ "uid" := "MQ" ]})
       (API.outgoing "password-reset-request/"
          (ForgotPassword.request_body Scenario.asking) Scenario.fresh))
  = inl (Scenario.ok {[ "uid" := "MQ" ]})
  /\ ForgotPassword.uid
       (ForgotPassword.fire
          (ForgotPassword.submitRequest
             (Scenario.answers (Scenario.ok {[ "uid" := "MQ" ]})))
          Scenario.asking Scenario.fresh).1.2
     = "MQ"
  /\ ForgotPassword.token
       (ForgotPassword.fire
          (ForgotPassword.submitRequest
             (Scenario.answers (Scenario.ok {[ "uid" := "MQ" ]})))
          Scenario.asking Scenario.fresh).1.2
     = ForgotPassword.token Scenario.asking.
Proof.
  split; [reflexivity|].
  pose proof (reset_request_updates_pair_independently
                (Scenario.answers (Scenario.ok {[ "uid" := "MQ" ]}))
                Scenario.asking Scenario.fresh
                (Scenario.ok {[ "uid" := "MQ" ]}) eq_refl) as [Hu [_ [_ Ht]]].
  split.
  - apply Hu; [reflexivity | discriminate].
  - apply Ht. left. reflexivity.
Defined.

Example asking_run :
  ForgotPassword.fire
    (ForgotPassword.submitRequest
       (Scenario.answers (Scenario.ok {[ "uid" := "MQ" ]})))
    Scenario.asking Scenario.fresh
  = (Normal tt,
     ForgotPassword.request_settled Scenario.asking
       "If an account exists for that email, a reset link will be sent." ""
       "MQ" "typed-token",
     {| localStorage := ∅;
        effects :=
          [EPreventDefault;
           EDispatch
             {| url := "password-reset-request/"; method := "post";
                headers := {[ "Content-Type" := "application/json" ]};
                body := {[ "email" := "bob@example.com" ]} |}] |}).
Proof. vm_compute. reflexivity. Qed.

(** ** The base URL of the API *)

Lemma startsWith_iff (s p : string) :
  JS.startsWith s p = true <-> exists post : string, s = p +:+ post.
Proof.
  revert s. induction p as [|a p IH]; intros s.
  - split; [intros _; exists s; reflexivity | destruct s; reflexivity].
  - destruct s as [|b s]; cbn.
    + split; [discriminate | intros [post H]; discriminate H].
    + rewrite andb_true_iff, bool_decide_eq_true, IH. split.
      * intros [-> [post ->]]. exists post. reflexivity.
      * intros [post [= -> ->]]. split; [reflexivity | exists post; reflexivity].
Qed.

Lemma includes_iff (s p : string) :
  JS.includes s p = true <-> exists pre post : string, s = pre +:+ p +:+ post.
Proof.
  induction s as [|b s IH]; cbn [JS.includes];
    rewrite orb_true_iff, startsWith_iff.
  - split.
    + intros [[post H] | H]; [|discriminate H]. exists "", post. exact H.
    + intros [pre [post H]]. left. destruct pre; [exists post; exact H|].
      discriminate H.
  - rewrite IH. split.
    + intros [[post H] | [pre [post H]]].
      * exists "", post. exact H.
      * exists (String b pre), post. cbn. rewrite H. reflexivity.
    + intros [[|c pre] [post H]].
      * left. exists post. exact H.
      * right. injection H as -> H. exists pre, post. exact H.
Qed.

Lemma endsWith_iff (s p : string) :
  JS.endsWith s p = true <-> exists pre : string, s = pre +:+ p.
Proof.
  induction s as [|b s IH]; cbn [JS.endsWith];
    rewrite orb_true_iff, bool_decide_eq_true.
  - split.
    + intros [<- | H]; [exists ""; reflexivity | discriminate H].
    + intros [[|c pre] H]; [left; exact H | discriminate H].
  - rewrite IH. split.
    + intros [<- | [pre ->]]; [exists ""; reflexivity|].
      exists (String b pre). reflexivity.
    + intros [[|c pre] H]; [left; exact H|].
      right. injection H as -> H. exists pre. exact H.
Qed.

Lemma endsWith_app (s p : string) : JS.endsWith (s +:+ p) p = true.
Proof. apply endsWith_iff. exists s. reflexivity. Qed.

Lemma normalizeBaseUrl_slash (window : API.window_state) (url : option string) :
  JS.endsWith (API.normalizeBaseUrl window url) "/" = true.
Proof.
  unfold API.normalizeBaseUrl.
  destruct (negb (JS.truthy url)).
  - destruct window as [|host|]; [reflexivity| |reflexivity].
    destruct (JS.includes host "localhost" || JS.includes host "127.0.0.1");
      reflexivity.
  - destruct (JS.endsWith (JS.to_string url) "/") eqn:E; [exact E|].
    apply endsWith_app.
Qed.

(** X1. Whatever the configured value and the host, the base URL is not
    empty and ends with a slash: it is some prefix followed by ["/"]. *)
Theorem normalizeBaseUrl_ends_with_slash
    (window : API.window_state) (url : option string) :
  JS.endsWith (API.normalizeBaseUrl window url) "/" = true
  /\ exists pre : string, API.normalizeBaseUrl window url = pre +:+ "/".
Proof.
  split; [apply normalizeBaseUrl_slash|].
  apply endsWith_iff, normalizeBaseUrl_slash.
Qed.

(** X2. Normalising is idempotent: a base URL that [normalizeBaseUrl]
    produced, configured again, comes back unchanged on any host. *)
Theorem normalizeBaseUrl_idempotent
    (window window' : API.window_state) (url : option string) :
  API.normalizeBaseUrl window' (Some (API.normalizeBaseUrl window url))
  = API.normalizeBaseUrl window url.
Proof.
  pose proof (normalizeBaseUrl_slash window url) as Hend.
  set (u := API.normalizeBaseUrl window url) in *.
  unfold API.normalizeBaseUrl at 1. cbn [JS.truthy JS.to_string].
  destruct u as [|a u]; [discriminate Hend|].
  cbn [JS.truthy_string negb]. rewrite Hend. reflexivity.
Qed.

(** X3. A configured value that is not empty decides the base URL alone:
    the host plays no part, and the result is the value itself when it ends
    with a slash and the value with one slash appended otherwise; in both
    cases the value is a prefix of the result and at most one character is
    added. *)
Theorem normalizeBaseUrl_explicit
    (window window' : API.window_state) (u : string) :
  u <> "" ->
  API.normalizeBaseUrl window (Some u) = API.normalizeBaseUrl window' (Some u)
  /\ ((exists pre : string, u = pre +:+ "/") ->
      API.normalizeBaseUrl window (Some u) = u)
  /\ ((forall pre : string, u <> pre +:+ "/") ->
      API.normalizeBaseUrl window (Some u) = u +:+ "/").
Proof.
  intros Hne. unfold API.normalizeBaseUrl. cbn [JS.truthy JS.to_string].
  rewrite (truthy_string_nonempty u Hne). cbn [negb].
  split; [reflexivity|]. split.
  - intros H. apply endsWith_iff in H. rewrite H. reflexivity.
  - intros H. destruct (JS.endsWith u "/") eqn:E; [|reflexivity].
    apply endsWith_iff in E. destruct E as [pre E]. destruct (H pre E).
Qed.

Lemma normalizeBaseUrl_explicit_witness :
  "http://10.0.0.5:8000/api" <> ""
  /\ API.normalizeBaseUrl API.WindowUndefined (Some "http://10.0.0.5:8000/api")
     = API.normalizeBaseUrl (API.WindowHost "localhost:3000")
         (Some "http://10.0.0.5:8000/api").
Proof.
  split; [discriminate|].
  apply (proj1 (normalizeBaseUrl_explicit API.WindowUndefined
                  (API.WindowHost "localhost:3000")
                  "http://10.0.0.5:8000/api" ltac:(discriminate))).
Defined.

(** X4. With no configured value, or an empty one, the host decides: the
    local API is chosen exactly when the host name contains [localhost] or
    [127.0.0.1] anywhere in it, and the production API otherwise; without a
    [window] the production API is chosen, and when reading the host throws
    the local one is. *)
Theorem normalizeBaseUrl_default (url : option string) (host : string) :
  url = None \/ url = Some "" ->
  (API.normalizeBaseUrl (API.WindowHost host) url = API.local_api
   <-> (exists pre post : string, host = pre +:+ "localhost" +:+ post)
       \/ (exists pre post : string, host = pre +:+ "127.0.0.1" +:+ post))
  /\ (API.normalizeBaseUrl (API.WindowHost host) url = API.local_api
      \/ API.normalizeBaseUrl (API.WindowHost host) url = API.production_api)
  /\ API.normalizeBaseUrl API.WindowUndefined url = API.production_api
  /\ API.normalizeBaseUrl API.WindowThrows url = API.local_api.
Proof.
  intros Hfalsy.
  assert (JS.truthy url = false) as Hf by (destruct Hfalsy as [-> | ->]; reflexivity).
  unfold API.normalizeBaseUrl. rewrite Hf. cbn [negb].
  rewrite <- !includes_iff, <- orb_true_iff.
  destruct (JS.includes host "localhost" || JS.includes host "127.0.0.1").
  - split; [split; reflexivity|]. split; [left; reflexivity|].
    split; reflexivity.
  - split; [split; discriminate|]. split; [right; reflexivity|].
    split; reflexivity.
Qed.

Lemma normalizeBaseUrl_default_witness :
  ((None : option string) = None \/ (None : option string) = Some "")
  /\ API.normalizeBaseUrl (API.WindowHost "mylocalhost.example.com:3000") None
     = API.local_api.
Proof.
  split; [left; reflexivity|].
  apply (proj2 (proj1 (normalizeBaseUrl_default None
                         "mylocalhost.example.com:3000" (or_introl eq_refl)))).
  left. exists "my", ".example.com:3000". reflexivity.
Defined.

(** ** The gateway beyond the 401 case *)

Section GatewayFrame.

Variable backend : request_config -> net_result.
Context {S : Type}.

(** X5. A call whose answer is anything but a 401 (a 2xx answer, another
    failure status, or a network fault) leaves [localStorage] exactly as it
    was; the caller gets the answer or the error, after one dispatch. *)
Theorem post_keeps_storage_unless_401
    (path : string) (payload : object) (s : S) (w : browser) :
  (forall r : http_response,
     backend (API.outgoing path payload w) = NetResponse r -> status r <> 401) ->
  localStorage (API.post backend path payload s w).2 = localStorage w
  /\ (API.post backend path payload s w).1.2 = s
  /\ since w (API.post backend path payload s w).2
     = [EDispatch (API.outgoing path payload w)].
Proof.
  intros Hno. rewrite post_eq.
  destruct (API.settle (backend (API.outgoing path payload w))) as [r|e] eqn:E.
  - rewrite (send_fulfilled backend _ r s w E). cbn [fst snd localStorage].
    rewrite since_app. repeat split.
  - rewrite (send_rejected backend _ e s w E). cbn [fst snd localStorage].
    rewrite since_app. split; [|repeat split].
    unfold API.settle in E.
    destruct (backend (API.outgoing path payload w)) as [r|] eqn:B.
    + destruct ((200 <=? status r) && (status r <? 300)); [discriminate E|].
      injection E as <-. cbn [response].
      destruct (Z.eqb_spec (status r) 401) as [H401|_]; [|reflexivity].
      destruct (Hno r eq_refl H401).
    + injection E as <-. reflexivity.
Qed.

(** X6. After a 401 answer both token entries are absent and every other
    entry is as before; a second 401 answer, to any request, changes
    nothing more. *)
Theorem eviction_is_idempotent
    (backend' : request_config -> net_result)
    (config config' : request_config) (r r' : http_response) (s : S) (w : browser) :
  backend config = NetResponse r -> status r = 401 ->
  backend' config' = NetResponse r' -> status r' = 401 ->
  localStorage (API.send backend config s w).2 !! "access_token" = None
  /\ localStorage (API.send backend config s w).2 !! "refresh_token" = None
  /\ (forall k : string, k <> "access_token" -> k <> "refresh_token" ->
      localStorage (API.send backend config s w).2 !! k = localStorage w !! k)
  /\ localStorage (API.send backend' config' s (API.send backend config s w).2).2
     = localStorage (API.send backend config s w).2.
Proof.
  intros Hb Hs Hb' Hs'.
  rewrite (send_rejected backend' config' _ s _ (settle_401 backend' config' r' Hb' Hs')).
  rewrite (send_rejected backend config _ s w (settle_401 backend config r Hb Hs)).
  cbn [snd localStorage response]. rewrite Hs, Hs'. cbn.
  split; [|split; [|split]].
  - rewrite lookup_delete_ne by discriminate. apply lookup_delete_eq.
  - apply lookup_delete_eq.
  - intros k Ha Hr. rewrite !lookup_delete_ne by congruence. reflexivity.
  - apply map_eq. intros k.
    destruct (decide (k = "refresh_token")) as [->|Hr];
      [rewrite !lookup_delete_eq; reflexivity|].
    destruct (decide (k = "access_token")) as [->|Ha].
    + rewrite !(lookup_delete_ne _ "refresh_token") by discriminate.
      rewrite !lookup_delete_eq. reflexivity.
    + rewrite !lookup_delete_ne by congruence. reflexivity.
Qed.

(** X7. Once a 401 answer has been handled, the next request, to any
    endpoint, is dispatched without an [Authorization] header. *)
Theorem no_bearer_after_401
    (config : request_config) (r : http_response) (s : S) (w : browser)
    (path : string) (payload : object) :
  backend config = NetResponse r -> status r = 401 ->
  dispatched
    (since (API.send backend config s w).2
       (API.post backend path payload s (API.send backend config s w).2).2)
  = [API.create_config path payload]
  /\ headers (API.create_config path payload) !! "Authorization" = None.
Proof.
  intros Hb Hs. rewrite post_dispatches_outgoing. split; [|reflexivity].
  rewrite (send_rejected backend config _ s w (settle_401 backend config r Hb Hs)).
  cbn [snd response]. rewrite Hs. cbn.
  unfold API.outgoing. cbn [localStorage].
  rewrite lookup_delete_ne by discriminate. rewrite lookup_delete_eq.
  reflexivity.
Qed.

(** X8. The request interceptor adds the [Authorization] header and
    nothing else: the URL, the method, the body and every other header of
    the request are as the caller built them, and neither the storage nor
    the trace changes. *)
Theorem request_interceptor_frame
    (config : request_config) (s : S) (w : browser) :
  exists config' : request_config,
    API.request_onFulfilled config s w = (Normal config', s, w)
    /\ url config' = url config
    /\ method config' = method config
    /\ body config' = body config
    /\ (forall name : string, name <> "Authorization" ->
        headers config' !! name = headers config !! name).
Proof.
  exists (API.with_bearer (localStorage w !! "access_token") config).
  split; [reflexivity|].
  unfold API.with_bearer.
  destruct (JS.truthy (localStorage w !! "access_token")); cbn;
    repeat split; try reflexivity.
  intros name Hne. apply lookup_insert_ne. congruence.
Qed.

End GatewayFrame.

Lemma post_keeps_storage_unless_401_witness :
  (forall r : http_response,
     Scenario.answers Scenario.forbidden
       (API.outgoing "profile/" ∅ Scenario.signed_in) = NetResponse r ->
     status r <> 401)
  /\ localStorage
       (API.post (Scenario.answers Scenario.forbidden) "profile/" ∅ tt
          Scenario.signed_in).2
     = localStorage Scenario.signed_in.
Proof.
  assert (forall r : http_response,
            Scenario.answers Scenario.forbidden
              (API.outgoing "profile/" ∅ Scenario.signed_in) = NetResponse r ->
            status r <> 401) as H.
  { intros r [= <-]. discriminate. }
  split; [exact H|].
  apply (proj1 (post_keeps_storage_unless_401
                  (Scenario.answers Scenario.forbidden) "profile/" ∅ tt
                  Scenario.signed_in H)).
Defined.

Lemma eviction_is_idempotent_witness :
  Scenario.answers Scenario.unauthorized (API.create_config "profile/" ∅)
  = NetResponse Scenario.unauthorized
  /\ status Scenario.unauthorized = 401
  /\ localStorage
       (API.send (Scenario.answers Scenario.unauthorized)
          (API.create_config "orders/" ∅) tt
          (API.send (Scenario.answers Scenario.unauthorized)
             (API.create_config "profile/" ∅) tt Scenario.signed_in).2).2
     = localStorage
         (API.send (Scenario.answers Scenario.unauthorized)
            (API.create_config "profile/" ∅) tt Scenario.signed_in).2.
Proof.
  split; [reflexivity|]. split; [reflexivity|].
  apply (eviction_is_idempotent
           (Scenario.answers Scenario.unauthorized)
           (Scenario.answers Scenario.unauthorized)
           (API.create_config "profile/" ∅) (API.create_config "orders/" ∅)
           Scenario.unauthorized Scenario.unauthorized tt Scenario.signed_in);
    reflexivity.
Defined.

Lemma no_bearer_after_401_witness :
  Scenario.answers Scenario.unauthorized (API.create_config "profile/" ∅)
  = NetResponse Scenario.unauthorized
  /\ status Scenario.unauthorized = 401
  /\ headers (API.outgoing "profile/" ∅ Scenario.signed_in) !! "Authorization"
     = Some "Bearer A1"
  /\ dispatched
       (since
          (API.send (Scenario.answers Scenario.unauthorized)
             (API.create_config "profile/" ∅) tt Scenario.signed_in).2
          (API.post (Scenario.answers Scenario.unauthorized) "orders/" ∅ tt
             (API.send (Scenario.answers Scenario.unauthorized)
                (API.create_config "profile/" ∅) tt Scenario.signed_in).2).2)
     = [API.create_config "orders/" ∅].
Proof.
  split; [reflexivity|]. split; [reflexivity|]. split; [reflexivity|].
  apply (proj1 (no_bearer_after_401
                  (Scenario.answers Scenario.unauthorized)
                  (API.create_config "profile/" ∅) Scenario.unauthorized tt
                  Scenario.signed_in "orders/" ∅ eq_refl eq_refl)).
Defined.

(** ** Sign-in beyond the claims *)

Lemma or_else_fallback_nonempty (v : option string) (fallback : string) :
  fallback <> "" -> JS.or_else v fallback <> "".
Proof.
  intros Hne. unfold JS.or_else.
  destruct v as [[|a t]|]; cbn; [exact Hne | discriminate | exact Hne].
Qed.

Lemma alerts_render (c : LoginPage.state) :
  LoginPage.alerts (LoginPage.render c)
  = if JS.truthy_string (LoginPage.error c) then [LoginPage.error c] else [].
Proof.
  unfold LoginPage.render. cbn.
  destruct (JS.truthy_string (LoginPage.error c)); reflexivity.
Qed.

Lemma buttons_render (c : LoginPage.state) :
  LoginPage.buttons (LoginPage.render c) = [LoginPage.isSubmitting c].
Proof.
  unfold LoginPage.render. cbn.
  destruct (JS.truthy_string (LoginPage.error c)); reflexivity.
Qed.

Section SignInExtras.

Import LoginPage.

Variable backend : request_config -> net_result.

(** Every run of [handleLogin] ends in one of three ways. *)
Lemma handleLogin_cases (c : state) (w : browser) :
  (exists e, API.settle (backend (API.outgoing "login/" (payload c) w)) = inr e)
  \/ (exists r, API.settle (backend (API.outgoing "login/" (payload c) w)) = inl r
                /\ data r = None)
  \/ (exists r fields,
        API.settle (backend (API.outgoing "login/" (payload c) w)) = inl r
        /\ data r = Some fields).
Proof.
  destruct (API.settle (backend (API.outgoing "login/" (payload c) w)))
    as [r|e]; [|left; eauto].
  right. destruct (data r) as [fields|] eqn:D; [right | left]; eauto.
Qed.

(** X9. No run of [handleLogin] throws, whatever the backend does; each
    one ends with the pending flag down and the three inputs as typed. *)
Theorem handleLogin_always_settles (c : state) (w : browser) :
  (fire (handleLogin backend) c w).1.1 = Normal tt
  /\ isSubmitting (fire (handleLogin backend) c w).1.2 = false
  /\ username (fire (handleLogin backend) c w).1.2 = username c
  /\ password (fire (handleLogin backend) c w).1.2 = password c
  /\ token (fire (handleLogin backend) c w).1.2 = token c
  /\ buttons (render (fire (handleLogin backend) c w).1.2) = [false].
Proof.
  destruct (handleLogin_cases c w) as [[e E] | [[r [E D]] | [r [fields [E D]]]]].
  - rewrite (handleLogin_rejected backend c w e E).
    cbn [fst snd]. rewrite buttons_render. repeat (split; [reflexivity|]).
    reflexivity.
  - rewrite (handleLogin_null_body backend c w r E D).
    cbn [fst snd]. rewrite buttons_render. repeat (split; [reflexivity|]).
    reflexivity.
  - rewrite (handleLogin_fulfilled backend c w r fields E D).
    cbn [fst snd]. rewrite buttons_render. repeat (split; [reflexivity|]).
    reflexivity.
Qed.

(** X10. A sign-in answered with both an access token and a non-empty
    refresh token stores the two under [access_token] and [refresh_token],
    replacing what was there, and touches no other entry. *)
Theorem login_stores_both_tokens
    (c : state) (w : browser) (r : http_response) (fields : object)
    (a f : string) :
  API.settle (backend (API.outgoing "login/" (payload c) w)) = inl r ->
  data r = Some fields ->
  fields !! "access" = Some a ->
  fields !! "refresh" = Some f ->
  f <> "" ->
  localStorage (fire (handleLogin backend) c w).2 !! "access_token" = Some a
  /\ localStorage (fire (handleLogin backend) c w).2 !! "refresh_token" = Some f
  /\ (forall k : string, k <> "access_token" -> k <> "refresh_token" ->
      localStorage (fire (handleLogin backend) c w).2 !! k = localStorage w !! k).
Proof.
  intros Hr Hd Ha Hf Hne. rewrite (handleLogin_fulfilled backend c w r fields Hr Hd).
  cbn [snd localStorage]. rewrite Ha, Hf. cbn [JS.truthy JS.to_string].
  rewrite (truthy_string_nonempty f Hne).
  split; [|split].
  - rewrite lookup_insert_ne by discriminate. apply lookup_insert_eq.
  - apply lookup_insert_eq.
  - intros k Hka Hkr. rewrite !lookup_insert_ne by congruence. reflexivity.
Qed.

(** X11. [handleLogin] navigates to [/dashboard], once and at once,
    exactly when the backend accepts the call with an object body; on a
    rejection, a network fault or a [null] body it does not navigate.  It
    never sets a timer. *)
Theorem login_navigates_iff_accepted (c : state) (w : browser) :
  ((exists r fields,
      API.settle (backend (API.outgoing "login/" (payload c) w)) = inl r
      /\ data r = Some fields)
   -> navigations (since w (fire (handleLogin backend) c w).2) = ["/dashboard"])
  /\ ((exists e, API.settle (backend (API.outgoing "login/" (payload c) w)) = inr e)
      \/ (exists r, API.settle (backend (API.outgoing "login/" (payload c) w)) = inl r
                    /\ data r = None)
      -> navigations (since w (fire (handleLogin backend) c w).2) = [])
  /\ scheduled (since w (fire (handleLogin backend) c w).2) = [].
Proof.
  split; [|split].
  - intros [r [fields [E D]]].
    rewrite (handleLogin_fulfilled backend c w r fields E D).
    cbn [snd]. rewrite since_app. reflexivity.
  - intros [[e E] | [r [E D]]].
    + rewrite (handleLogin_rejected backend c w e E).
      cbn [snd]. rewrite since_app. reflexivity.
    + rewrite (handleLogin_null_body backend c w r E D).
      cbn [snd]. rewrite since_app. reflexivity.
  - destruct (handleLogin_cases c w) as [[e E] | [[r [E D]] | [r [fields [E D]]]]].
    + rewrite (handleLogin_rejected backend c w e E).
      cbn [snd]. rewrite since_app. reflexivity.
    + rewrite (handleLogin_null_body backend c w r E D).
      cbn [snd]. rewrite since_app. reflexivity.
    + rewrite (handleLogin_fulfilled backend c w r fields E D).
      cbn [snd]. rewrite since_app. reflexivity.
Qed.

(** X12. After a rejected or faulted sign-in the page shows one alert:
    the [error] field of the response body when there is one and it is not
    empty, and the fixed fallback text in every other case (no response, no
    body, no [error] field, an empty one).  After a sign-in accepted with
    an object body the error cell is empty and no alert is shown, whatever
    it held before.  A 2xx answer whose body is [null] is not a sign-in:
    reading [data.access] throws, and the page shows the fallback text as
    its one alert. *)
Theorem login_alert (c : state) (w : browser) :
  (forall (e : axios_error) (r : http_response) (m : string),
     API.settle (backend (API.outgoing "login/" (payload c) w)) = inr e ->
     response e = Some r -> opt_field (data r) "error" = Some m -> m <> "" ->
     error (fire (handleLogin backend) c w).1.2 = m
     /\ alerts (render (fire (handleLogin backend) c w).1.2) = [m])
  /\ (forall e : axios_error,
        API.settle (backend (API.outgoing "login/" (payload c) w)) = inr e ->
        response e = None
        \/ (exists r, response e = Some r
                      /\ (opt_field (data r) "error" = None
                          \/ opt_field (data r) "error" = Some "")) ->
        error (fire (handleLogin backend) c w).1.2
        = "Login failed. Check your credentials and 2FA token."
        /\ alerts (render (fire (handleLogin backend) c w).1.2)
           = ["Login failed. Check your credentials and 2FA token."])
  /\ (forall (r : http_response) (fields : object),
        API.settle (backend (API.outgoing "login/" (payload c) w)) = inl r ->
        data r = Some fields ->
        error (fire (handleLogin backend) c w).1.2 = ""
        /\ alerts (render (fire (handleLogin backend) c w).1.2) = [])
  /\ (forall r : http_response,
        API.settle (backend (API.outgoing "login/" (payload c) w)) = inl r ->
        data r = None ->
        error (fire (handleLogin backend) c w).1.2
        = "Login failed. Check your credentials and 2FA token."
        /\ alerts (render (fire (handleLogin backend) c w).1.2)
           = ["Login failed. Check your credentials and 2FA token."]).
Proof.
  split; [|split; [|split]].
  - intros e r m E Hr Hm Hne. rewrite (handleLogin_rejected backend c w e E).
    cbn [fst snd]. rewrite alerts_render. cbn [error settled].
    unfold error_message. cbn [response_of]. rewrite Hr.
    rewrite (or_else_nonempty _ _ m Hm Hne), (truthy_string_nonempty m Hne).
    split; reflexivity.
  - intros e E H. rewrite (handleLogin_rejected backend c w e E).
    cbn [fst snd]. rewrite alerts_render. cbn [error settled].
    unfold error_message. cbn [response_of].
    destruct H as [-> | [r [-> H]]]; [split; reflexivity|].
    rewrite (or_else_falsy _ _ H). split; reflexivity.
  - intros r fields E D. rewrite (handleLogin_fulfilled backend c w r fields E D).
    split; reflexivity.
  - intros r E D. rewrite (handleLogin_null_body backend c w r E D).
    split; reflexivity.
Qed.

(** X13. After an accepted sign-in whose access token is not empty,
    that token is what [access_token] holds, and the next request sent
    through the gateway, to any endpoint and whatever the backend answers
    to it, is dispatched with [Authorization: Bearer] followed by that
    token, whether or not a refresh token came with the sign-in. *)
Theorem bearer_after_login
    (c : state) (w : browser) (r : http_response) (fields : object) (a : string)
    (path : string) (body' : object)
    (backend' : request_config -> net_result) :
  API.settle (backend (API.outgoing "login/" (payload c) w)) = inl r ->
  data r = Some fields ->
  fields !! "access" = Some a ->
  a <> "" ->
  localStorage (fire (handleLogin backend) c w).2 !! "access_token" = Some a
  /\ dispatched
       (since (fire (handleLogin backend) c w).2
          (API.post backend' path body' (fire (handleLogin backend) c w).1.2
             (fire (handleLogin backend) c w).2).2)
     = [API.outgoing path body' (fire (handleLogin backend) c w).2]
  /\ headers (API.outgoing path body' (fire (handleLogin backend) c w).2)
       !! "Authorization"
     = Some ("Bearer " +:+ a).
Proof.
  intros Hr Hd Ha Hne.
  split; [|split; [apply post_dispatches_outgoing|]];
    rewrite (handleLogin_fulfilled backend c w r fields Hr Hd);
    cbn [snd]; unfold API.outgoing; cbn [localStorage]; rewrite Ha;
    cbn [JS.to_string];
    assert ((if JS.truthy (fields !! "refresh")
             then <["refresh_token" := JS.to_string (fields !! "refresh")]>
             else id) (<["access_token" := a]> (localStorage w)) !! "access_token"
            = Some a) as Hl
      by (destruct (JS.truthy (fields !! "refresh")); cbn [id];
          [rewrite lookup_insert_ne by discriminate|]; apply lookup_insert_eq).
  - exact Hl.
  - rewrite Hl, headers_with_bearer, (truthy_string_nonempty a Hne).
    apply lookup_insert_eq.
Qed.

(** X14. A 2xx answer to [login/] whose body is an object without an
    [access] field is still treated as a sign-in: [access_token] is set to
    the string [undefined], the page navigates to [/dashboard], and the next
    request sent through the gateway, to any endpoint and whatever the
    backend answers to it, is dispatched with
    [Authorization: Bearer undefined]. *)
Theorem login_without_access_field
    (c : state) (w : browser) (r : http_response) (fields : object)
    (path : string) (body' : object)
    (backend' : request_config -> net_result) :
  API.settle (backend (API.outgoing "login/" (payload c) w)) = inl r ->
  data r = Some fields ->
  fields !! "access" = None ->
  localStorage (fire (handleLogin backend) c w).2 !! "access_token"
  = Some "undefined"
  /\ navigations (since w (fire (handleLogin backend) c w).2) = ["/dashboard"]
  /\ dispatched
       (since (fire (handleLogin backend) c w).2
          (API.post backend' path body' (fire (handleLogin backend) c w).1.2
             (fire (handleLogin backend) c w).2).2)
     = [API.outgoing path body' (fire (handleLogin backend) c w).2]
  /\ headers (API.outgoing path body' (fire (handleLogin backend) c w).2)
       !! "Authorization"
     = Some "Bearer undefined".
Proof.
  intros Hr Hd Ha.
  split; [|split; [|split; [apply post_dispatches_outgoing|]]];
    rewrite (handleLogin_fulfilled backend c w r fields Hr Hd);
    cbn [snd localStorage]; rewrite ?since_app, ?Ha; cbn [JS.to_string];
    assert ((if JS.truthy (fields !! "refresh")
             then <["refresh_token" := JS.to_string (fields !! "refresh")]>
             else id) (<["access_token" := "undefined"]> (localStorage w))
              !! "access_token"
            = Some "undefined") as Hl
      by (destruct (JS.truthy (fields !! "refresh")); cbn [id];
          [rewrite lookup_insert_ne by discriminate|]; apply lookup_insert_eq).
  - exact Hl.
  - reflexivity.
  - unfold API.outgoing. cbn [localStorage]. rewrite Hl. reflexivity.
Qed.

End SignInExtras.

Lemma login_stores_both_tokens_witness :
  API.settle
    (Scenario.answers Scenario.both_tokens
       (API.outgoing "login/" (LoginPage.payload Scenario.alice_2fa)
          Scenario.stale_refresh))
  = inl Scenario.both_tokens
  /\ "R2" <> ""
  /\ localStorage
       (LoginPage.fire
          (LoginPage.handleLogin (Scenario.answers Scenario.both_tokens))
          Scenario.alice_2fa Scenario.stale_refresh).2 !! "refresh_token"
     = Some "R2".
Proof.
  split; [reflexivity|]. split; [discriminate|].
  apply (proj1 (proj2
           (login_stores_both_tokens (Scenario.answers Scenario.both_tokens)
              Scenario.alice_2fa Scenario.stale_refresh Scenario.both_tokens
              {[ "access" := "A2"; "refresh" := "R2" ]} "A2" "R2"
              eq_refl eq_refl eq_refl eq_refl ltac:(discriminate)))).
Defined.

Lemma login_navigates_iff_accepted_witness :
  (exists r fields,
     API.settle
       (Scenario.answers Scenario.both_tokens
          (API.outgoing "login/" (LoginPage.payload Scenario.alice_2fa)
             Scenario.fresh)) = inl r
     /\ data r = Some fields)
  /\ navigations
       (since Scenario.fresh
          (LoginPage.fire
             (LoginPage.handleLogin (Scenario.answers Scenario.both_tokens))
             Scenario.alice_2fa Scenario.fresh).2)
     = ["/dashboard"].
Proof.
  assert (exists r fields,
            API.settle
              (Scenario.answers Scenario.both_tokens
                 (API.outgoing "login/" (LoginPage.payload Scenario.alice_2fa)
                    Scenario.fresh)) = inl r
            /\ data r = Some fields) as H.
  { exists Scenario.both_tokens, {[ "access" := "A2"; "refresh" := "R2" ]}.
    split; reflexivity. }
  split; [exact H|].
  apply (proj1 (login_navigates_iff_accepted
                  (Scenario.answers Scenario.both_tokens)
                  Scenario.alice_2fa Scenario.fresh) H).
Defined.

Lemma login_alert_witness :
  API.settle
    (Scenario.answers Scenario.bad_request
       (API.outgoing "login/" (LoginPage.payload Scenario.alice_wrong)
          Scenario.fresh))
  = inr {| response := Some Scenario.bad_request |}
  /\ opt_field (data Scenario.bad_request) "error" = Some "Invalid credentials"
  /\ LoginPage.alerts
       (LoginPage.render
          (LoginPage.fire
             (LoginPage.handleLogin (Scenario.answers Scenario.bad_request))
             Scenario.alice_wrong Scenario.fresh).1.2)
     = ["Invalid credentials"].
Proof.
  split; [reflexivity|]. split; [reflexivity|].
  apply (proj1 (login_alert (Scenario.answers Scenario.bad_request)
                  Scenario.alice_wrong Scenario.fresh)
           {| response := Some Scenario.bad_request |} Scenario.bad_request
           "Invalid credentials" eq_refl eq_refl eq_refl ltac:(discriminate)).
Defined.

Lemma bearer_after_login_witness :
  API.settle
    (Scenario.answers Scenario.both_tokens
       (API.outgoing "login/" (LoginPage.payload Scenario.alice_2fa)
          Scenario.fresh))
  = inl Scenario.both_tokens
  /\ "A2" <> ""
  /\ dispatched
       (since
          (LoginPage.fire
             (LoginPage.handleLogin (Scenario.answers Scenario.both_tokens))
             Scenario.alice_2fa Scenario.fresh).2
          (API.post (Scenario.answers Scenario.unauthorized) "profile/" ∅
             (LoginPage.fire
                (LoginPage.handleLogin (Scenario.answers Scenario.both_tokens))
                Scenario.alice_2fa Scenario.fresh).1.2
             (LoginPage.fire
                (LoginPage.handleLogin (Scenario.answers Scenario.both_tokens))
                Scenario.alice_2fa Scenario.fresh).2).2)
     = [API.outgoing "profile/" ∅
          (LoginPage.fire
             (LoginPage.handleLogin (Scenario.answers Scenario.both_tokens))
             Scenario.alice_2fa Scenario.fresh).2]
  /\ headers
       (API.outgoing "profile/" ∅
          (LoginPage.fire
             (LoginPage.handleLogin (Scenario.answers Scenario.both_tokens))
             Scenario.alice_2fa Scenario.fresh).2) !! "Authorization"
     = Some "Bearer A2".
Proof.
  split; [reflexivity|]. split; [discriminate|].
  pose proof (bearer_after_login (Scenario.answers Scenario.both_tokens)
                Scenario.alice_2fa Scenario.fresh Scenario.both_tokens
                {[ "access" := "A2"; "refresh" := "R2" ]} "A2" "profile/" ∅
                (Scenario.answers Scenario.unauthorized)
                eq_refl eq_refl eq_refl ltac:(discriminate))
    as [_ [Hd Hh]].
  split; [exact Hd | exact Hh].
Defined.

Lemma login_without_access_field_witness :
  API.settle
    (Scenario.answers (Scenario.ok ∅)
       (API.outgoing "login/" (LoginPage.payload Scenario.alice_2fa)
          Scenario.fresh))
  = inl (Scenario.ok ∅)
  /\ (∅ : gmap string string) !! "access" = None
  /\ localStorage
       (LoginPage.fire (LoginPage.handleLogin (Scenario.answers (Scenario.ok ∅)))
          Scenario.alice_2fa Scenario.fresh).2 !! "access_token"
     = Some "undefined".
Proof.
  split; [reflexivity|]. split; [reflexivity|].
  apply (proj1 (login_without_access_field (Scenario.answers (Scenario.ok ∅))
                  Scenario.alice_2fa Scenario.fresh (Scenario.ok ∅) ∅
                  "profile/" ∅ (Scenario.answers Scenario.unauthorized)
                  eq_refl eq_refl (lookup_empty "access"))).
Defined.

(** ** White space in the sign-in form *)

Lemma trimStart_empty_iff (s : string) :
  JS.trimStart s = "" <-> JS.blank s = true.
Proof.
  induction s as [|a s IH]; cbn; [split; reflexivity|].
  destruct (JS.is_whitespace a); cbn; [exact IH|].
  split; discriminate.
Qed.

Lemma trimStart_head (s : string) :
  JS.trimStart s = ""
  \/ exists a t, JS.trimStart s = String a t /\ JS.is_whitespace a = false.
Proof.
  induction s as [|a s IH]; cbn; [left; reflexivity|].
  destruct (JS.is_whitespace a) eqn:E; [exact IH|].
  right. exists a, s. split; [reflexivity | exact E].
Qed.

Lemma trimEnd_head_kept (a : ascii) (t : string) :
  JS.is_whitespace a = false -> JS.trimEnd (String a t) <> "".
Proof.
  intros E. cbn [JS.trimEnd]. rewrite E.
  destruct (JS.trimEnd t); discriminate.
Qed.

Lemma trim_empty_iff (s : string) : JS.trim s = "" <-> JS.blank s = true.
Proof.
  rewrite <- trimStart_empty_iff. unfold JS.trim.
  destruct (trimStart_head s) as [-> | [a [t [-> E]]]].
  - split; reflexivity.
  - split; [intros H; destruct (trimEnd_head_kept a t E H) | discriminate].
Qed.

(** X15. The sign-in body has a [token] field exactly when the typed
    second-factor code contains a character that is not white space: a code
    made of spaces, tabs or line breaks only is sent as no code at all. *)
Theorem blank_second_factor_omitted (c : LoginPage.state) :
  LoginPage.payload c !! "token" = None <-> JS.blank (LoginPage.token c) = true.
Proof.
  rewrite <- trim_empty_iff, payload_lookup. cbn.
  destruct (JS.trim (LoginPage.token c)) as [|a t]; cbn.
  - split; reflexivity.
  - split; discriminate.
Qed.

(** ** Password reset beyond the claims *)

Section ResetExtras.

Import ForgotPassword.

Variable backend : request_config -> net_result.

(** Every run of [submitRequest] ends in one of two ways, every run of
    [submitConfirm] in one of three. *)
Lemma submitRequest_cases (c : state) (w : browser) :
  (exists r status' uid' token',
     fire (submitRequest backend) c w
     = (Normal tt, request_settled c status' "" uid' token',
        {| localStorage := localStorage w;
           effects :=
             effects w
             ++ [EPreventDefault;
                 EDispatch
                   (API.outgoing "password-reset-request/" (request_body c) w)] |})
     /\ API.settle
          (backend (API.outgoing "password-reset-request/" (request_body c) w))
        = inl r
     /\ status' <> "")
  \/ (exists e error',
        fire (submitRequest backend) c w
        = (Normal tt, request_settled c "" error' (uid c) (token c),
           {| localStorage :=
                match response e with
                | Some r =>
                    if status r =? 401
                    then delete "refresh_token"
                           (delete "access_token" (localStorage w))
                    else localStorage w
                | None => localStorage w
                end;
              effects :=
                effects w
                ++ [EPreventDefault;
                    EDispatch
                      (API.outgoing "password-reset-request/" (request_body c) w)] |})
        /\ API.settle
             (backend (API.outgoing "password-reset-request/" (request_body c) w))
           = inr e
        /\ error' <> "").
Proof.
  destruct (API.settle
              (backend (API.outgoing "password-reset-request/" (request_body c) w)))
    as [r|e] eqn:E.
  - left. eexists r, _, _, _. split; [apply (submitRequest_accepted backend c w r E)|].
    split; [reflexivity|]. apply or_else_fallback_nonempty. discriminate.
  - right. eexists e, _. split; [apply (submitRequest_rejected backend c w e E)|].
    split; [reflexivity|]. apply or_else_fallback_nonempty. discriminate.
Qed.

Lemma submitConfirm_cases (c : state) (w : browser) :
  (password c <> confirm c
   /\ fire (submitConfirm backend) c w
      = (Normal tt, confirm_settled c "" "Passwords do not match.",
         {| localStorage := localStorage w;
            effects := effects w ++ [EPreventDefault] |}))
  \/ (password c = confirm c
      /\ exists r,
           API.settle
             (backend (API.outgoing "password-reset-confirm/" (confirm_body c) w))
           = inl r
           /\ fire (submitConfirm backend) c w
              = (Normal tt,
                 confirm_settled c "Password updated. You can now sign in." "",
                 {| localStorage := localStorage w;
                    effects :=
                      effects w
                      ++ [EPreventDefault;
                          EDispatch
                            (API.outgoing "password-reset-confirm/"
                               (confirm_body c) w);
                          ESetTimeout (CbNavigate "/") 1200] |}))
  \/ (password c = confirm c
      /\ exists e error',
           API.settle
             (backend (API.outgoing "password-reset-confirm/" (confirm_body c) w))
           = inr e
           /\ error' <> ""
           /\ fire (submitConfirm backend) c w
              = (Normal tt, confirm_settled c "" error',
                 {| localStorage :=
                      match response e with
                      | Some r =>
                          if status r =? 401
                          then delete "refresh_token"
                                 (delete "access_token" (localStorage w))
                          else localStorage w
                      | None => localStorage w
                      end;
                    effects :=
                      effects w
                      ++ [EPreventDefault;
                          EDispatch
                            (API.outgoing "password-reset-confirm/"
                               (confirm_body c) w)] |})).
Proof.
  destruct (decide (password c = confirm c)) as [Heq|Hne].
  - right.
    destruct (API.settle
                (backend (API.outgoing "password-reset-confirm/" (confirm_body c) w)))
      as [r|e] eqn:E.
    + left. split; [exact Heq|]. exists r. split; [reflexivity|].
      apply (submitConfirm_accepted backend c w r Heq E).
    + right. split; [exact Heq|]. eexists e, _. split; [reflexivity|].
      split; [|apply (submitConfirm_rejected backend c w e Heq E)].
      apply or_else_fallback_nonempty. discriminate.
  - left. split; [exact Hne|]. apply (submitConfirm_mismatch backend c w Hne).
Qed.

Lemma evicted_subseteq (m : gmap string string) (e : axios_error) :
  match response e with
  | Some r =>
      if status r =? 401
      then delete "refresh_token" (delete "access_token" m)
      else m
  | None => m
  end ⊆ m.
Proof.
  destruct (response e) as [r|]; [|reflexivity].
  destruct (status r =? 401); [|reflexivity].
  etransitivity; apply delete_subseteq.
Qed.

(** X16. Neither reset handler ever writes to [localStorage]: after a
    run of [submitRequest] or of [submitConfirm] every entry of the storage
    was there before with the same value.  (Entries can only go missing,
    through the 401 handling of the gateway.) *)
Theorem reset_never_writes_storage (c : state) (w : browser) :
  localStorage (fire (submitRequest backend) c w).2 ⊆ localStorage w
  /\ localStorage (fire (submitConfirm backend) c w).2 ⊆ localStorage w.
Proof.
  split.
  - destruct (submitRequest_cases c w)
      as [[r [st [u [t [-> _]]]]] | [e [er [-> _]]]]; cbn [snd localStorage].
    + reflexivity.
    + apply evicted_subseteq.
  - destruct (submitConfirm_cases c w)
      as [[_ ->] | [[_ [r [_ ->]]] | [_ [e [er [_ [_ ->]]]]]]];
      cbn [snd localStorage]; [reflexivity | reflexivity | apply evicted_subseteq].
Qed.

(** X17. No run of a reset handler throws, and each ends with its own
    pending flag down: [isRequesting] after [submitRequest], [isConfirming]
    after [submitConfirm]. *)
Theorem reset_handlers_always_settle (c : state) (w : browser) :
  (fire (submitRequest backend) c w).1.1 = Normal tt
  /\ isRequesting (fire (submitRequest backend) c w).1.2 = false
  /\ (fire (submitConfirm backend) c w).1.1 = Normal tt
  /\ isConfirming (fire (submitConfirm backend) c w).1.2 = false.
Proof.
  destruct (submitRequest_cases c w)
    as [[r [st [u [t [-> _]]]]] | [e [er [-> _]]]];
    destruct (submitConfirm_cases c w)
      as [[_ ->] | [[_ [r' [_ ->]]] | [_ [e' [er' [_ [_ ->]]]]]]];
    repeat (split; [reflexivity|]); reflexivity.
Qed.

(** X18. The two phases keep separate state.  [submitRequest] leaves the
    email, both password inputs and the status, error and pending flag of
    the confirmation phase as they were; [submitConfirm] leaves the email,
    the correlation pair, both password inputs and the status, error and
    pending flag of the request phase as they were. *)
Theorem reset_phases_independent (c : state) (w : browser) :
  (email (fire (submitRequest backend) c w).1.2 = email c
   /\ password (fire (submitRequest backend) c w).1.2 = password c
   /\ confirm (fire (submitRequest backend) c w).1.2 = confirm c
   /\ confirmStatus (fire (submitRequest backend) c w).1.2 = confirmStatus c
   /\ confirmError (fire (submitRequest backend) c w).1.2 = confirmError c
   /\ isConfirming (fire (submitRequest backend) c w).1.2 = isConfirming c)
  /\ (email (fire (submitConfirm backend) c w).1.2 = email c
      /\ uid (fire (submitConfirm backend) c w).1.2 = uid c
      /\ token (fire (submitConfirm backend) c w).1.2 = token c
      /\ password (fire (submitConfirm backend) c w).1.2 = password c
      /\ confirm (fire (submitConfirm backend) c w).1.2 = confirm c
      /\ requestStatus (fire (submitConfirm backend) c w).1.2 = requestStatus c
      /\ requestError (fire (submitConfirm backend) c w).1.2 = requestError c
      /\ isRequesting (fire (submitConfirm backend) c w).1.2 = isRequesting c).
Proof.
  destruct (submitRequest_cases c w)
    as [[r [st [u [t [-> _]]]]] | [e [er [-> _]]]];
    destruct (submitConfirm_cases c w)
      as [[_ ->] | [[_ [r' [_ ->]]] | [_ [e' [er' [_ [_ ->]]]]]]];
    split; repeat (split; [reflexivity|]); reflexivity.
Qed.

(** X19. A finished submission shows a status or an error, never both
    and never neither: after [submitRequest] exactly one of [requestStatus]
    and [requestError] is non-empty, and after [submitConfirm] exactly one
    of [confirmStatus] and [confirmError] is. *)
Theorem reset_status_xor_error (c : state) (w : browser) :
  (requestStatus (fire (submitRequest backend) c w).1.2 = ""
   <-> requestError (fire (submitRequest backend) c w).1.2 <> "")
  /\ (confirmStatus (fire (submitConfirm backend) c w).1.2 = ""
      <-> confirmError (fire (submitConfirm backend) c w).1.2 <> "").
Proof.
  split.
  - destruct (submitRequest_cases c w)
      as [[r [st [u [t [-> [_ Hst]]]]]] | [e [er [-> [_ Her]]]]];
      cbn [fst snd requestStatus requestError request_settled].
    + split; [intros H; destruct (Hst H) | intros H; destruct (H eq_refl)].
    + split; [intros _; exact Her | reflexivity].
  - destruct (submitConfirm_cases c w)
      as [[_ ->] | [[_ [r' [_ ->]]] | [_ [e' [er' [_ [Her ->]]]]]]];
      cbn [fst snd confirmStatus confirmError confirm_settled].
    + split; [discriminate | reflexivity].
    + split; [discriminate | intros H; destruct (H eq_refl)].
    + split; [intros _; exact Her | reflexivity].
Qed.

End ResetExtras.

Section ResetExtrasMore.

Import ForgotPassword.

Variable backend : request_config -> net_result.

Lemma confirm_body_lookup (c : state) (k : string) :
  confirm_body c !! k
  = if bool_decide (k = "uid") then Some (JS.trim (uid c))
    else if bool_decide (k = "token") then Some (JS.trim (token c))
    else if bool_decide (k = "new_password") then Some (password c)
    else None.
Proof.
  unfold confirm_body. repeat case_bool_decide; simplify_map_eq; reflexivity.
Qed.

Lemma submitConfirm_dispatches (c : state) (w : browser) :
  password c = confirm c ->
  dispatched (since w (fire (submitConfirm backend) c w).2)
  = [API.outgoing "password-reset-confirm/" (confirm_body c) w].
Proof.
  intros Heq.
  destruct (submitConfirm_cases backend c w)
    as [[Hne _] | [[_ [r [_ ->]]] | [_ [e [er [_ [_ ->]]]]]]];
    [contradiction | |]; cbn [snd]; rewrite since_app; reflexivity.
Qed.

(** X20. When the two passwords are equal, a confirmation submission
    sends one request, to [password-reset-confirm/], whose body holds the
    trimmed [uid], the trimmed [token], and the new password exactly as
    typed (it is not trimmed), and no other field. *)
Theorem confirm_payload_sent (c : state) (w : browser) :
  password c = confirm c ->
  dispatched (since w (fire (submitConfirm backend) c w).2)
  = [API.outgoing "password-reset-confirm/" (confirm_body c) w]
  /\ url (API.outgoing "password-reset-confirm/" (confirm_body c) w)
     = "password-reset-confirm/"
  /\ body (API.outgoing "password-reset-confirm/" (confirm_body c) w)
     = confirm_body c
  /\ confirm_body c !! "uid" = Some (JS.trim (uid c))
  /\ confirm_body c !! "token" = Some (JS.trim (token c))
  /\ confirm_body c !! "new_password" = Some (password c)
  /\ (forall k : string, k <> "uid" -> k <> "token" -> k <> "new_password" ->
      confirm_body c !! k = None).
Proof.
  intros Heq.
  split; [apply (submitConfirm_dispatches c w Heq)|].
  split; [apply outgoing_url|].
  split; [apply outgoing_body|].
  split; [rewrite confirm_body_lookup; reflexivity|].
  split; [rewrite confirm_body_lookup; reflexivity|].
  split; [rewrite confirm_body_lookup; reflexivity|].
  intros k Hu Ht Hp. rewrite confirm_body_lookup.
  repeat case_bool_decide; congruence.
Qed.

(** X21. When the reset request is rejected or faults, the error shown
    is the [error] field of the response body if there is one and it is not
    empty, and ["Unable to submit request."] otherwise; the status stays
    empty and the correlation pair is left as it was. *)
Theorem reset_request_failure (c : state) (w : browser) (e : axios_error) :
  API.settle (backend (API.outgoing "password-reset-request/" (request_body c) w))
  = inr e ->
  (forall (r : http_response) (m : string),
     response e = Some r -> opt_field (data r) "error" = Some m -> m <> "" ->
     requestError (fire (submitRequest backend) c w).1.2 = m)
  /\ (response e = None
      \/ (exists r, response e = Some r
                    /\ (opt_field (data r) "error" = None
                        \/ opt_field (data r) "error" = Some "")) ->
      requestError (fire (submitRequest backend) c w).1.2
      = "Unable to submit request.")
  /\ requestStatus (fire (submitRequest backend) c w).1.2 = ""
  /\ uid (fire (submitRequest backend) c w).1.2 = uid c
  /\ token (fire (submitRequest backend) c w).1.2 = token c.
Proof.
  intros E. rewrite (submitRequest_rejected backend c w e E).
  cbn [fst snd requestError requestStatus uid token request_settled].
  unfold error_message. cbn [response_of].
  split; [|split; [|repeat split]].
  - intros r m -> Hm Hne. exact (or_else_nonempty _ _ m Hm Hne).
  - intros [-> | [r [-> H]]]; [reflexivity|]. exact (or_else_falsy _ _ H).
Qed.

(** X22. When the passwords are equal and the confirmation is rejected
    or faults, the error shown is the [error] field of the response body if
    there is one and it is not empty, and ["Unable to reset password."]
    otherwise; the view displays it, and the status stays empty. *)
Theorem reset_confirm_failure
    (query : URLSearchParams) (c : state) (w : browser) (e : axios_error) :
  password c = confirm c ->
  API.settle (backend (API.outgoing "password-reset-confirm/" (confirm_body c) w))
  = inr e ->
  (forall (r : http_response) (m : string),
     response e = Some r -> opt_field (data r) "error" = Some m -> m <> "" ->
     confirmError (fire (submitConfirm backend) c w).1.2 = m)
  /\ (response e = None
      \/ (exists r, response e = Some r
                    /\ (opt_field (data r) "error" = None
                        \/ opt_field (data r) "error" = Some "")) ->
      confirmError (fire (submitConfirm backend) c w).1.2
      = "Unable to reset password.")
  /\ confirmStatus (fire (submitConfirm backend) c w).1.2 = ""
  /\ confirmError (fire (submitConfirm backend) c w).1.2
       ∈ paragraphs (render query (fire (submitConfirm backend) c w).1.2).
Proof.
  intros Heq E. rewrite (submitConfirm_rejected backend c w e Heq E).
  cbn [fst snd].
  split; [|split; [|split; [reflexivity|]]].
  - intros r m Hr Hm Hne. cbn [confirmError confirm_settled].
    unfold error_message. cbn [response_of]. rewrite Hr.
    exact (or_else_nonempty _ _ m Hm Hne).
  - intros H. cbn [confirmError confirm_settled].
    unfold error_message. cbn [response_of].
    destruct H as [-> | [r [-> H]]]; [reflexivity|]. exact (or_else_falsy _ _ H).
  - apply confirmError_displayed. cbn [confirmError confirm_settled].
    apply or_else_fallback_nonempty. discriminate.
Qed.

(** X23. Opening the page from a link and typing the same new password
    twice is enough: the [uid] and [token] of the link, trimmed, and the
    typed password are what the confirmation request carries. *)
Theorem link_pair_reaches_backend
    (query : URLSearchParams) (u t p : string) (w : browser) :
  get query "uid" = Some u -> u <> "" ->
  get query "token" = Some t -> t <> "" ->
  map body
    (dispatched
       (since w
          (fire (submitConfirm backend)
             ((effect_showConfirm query ;;; setPassword p ;;; setConfirm p)
                (initial_state query) w).1.2
             w).2))
  = [ {[ "uid" := JS.trim u; "token" := JS.trim t; "new_password" := p ]} ].
Proof.
  intros Hu Hun Ht Htn.
  assert (initUid query = u) as Hiu
    by (unfold initUid; exact (or_else_nonempty _ _ u Hu Hun)).
  assert (initToken query = t) as Hit
    by (unfold initToken; exact (or_else_nonempty _ _ t Ht Htn)).
  assert (showConfirm query = true) as Hs.
  { unfold showConfirm, JS.and_string. rewrite Hiu, Hit.
    rewrite (truthy_string_nonempty u Hun). exact (truthy_string_nonempty t Htn). }
  unfold effect_showConfirm. rewrite Hs. unfold initial_state.
  rewrite Hiu, Hit. cbn [bind setRequestStatus setRequestError setPassword
                         setConfirm set_state fst snd].
  rewrite submitConfirm_dispatches by reflexivity.
  cbn [map]. rewrite outgoing_body. reflexivity.
Qed.

End ResetExtrasMore.

Section ResetEndToEnd.

Import ForgotPassword.

Variable backend backend' : request_config -> net_result.

(** X24. The correlation pair of an accepted reset request flows into
    the confirmation: when the response carries non-empty [uid] and
    [token], and the user then types the same new password twice, the
    confirmation request carries that pair, trimmed, with the typed
    password, whatever the two fields held before. *)
Theorem request_pair_reaches_backend
    (c : state) (w : browser) (r : http_response) (u t p : string) :
  API.settle (backend (API.outgoing "password-reset-request/" (request_body c) w))
  = inl r ->
  opt_field (data r) "uid" = Some u -> u <> "" ->
  opt_field (data r) "token" = Some t -> t <> "" ->
  map body
    (dispatched
       (since (fire (submitRequest backend) c w).2
          (fire (submitConfirm backend')
             ((setPassword p ;;; setConfirm p)
                (fire (submitRequest backend) c w).1.2
                (fire (submitRequest backend) c w).2).1.2
             (fire (submitRequest backend) c w).2).2))
  = [ {[ "uid" := JS.trim u; "token" := JS.trim t; "new_password" := p ]} ].
Proof.
  intros E Hu Hun Ht Htn. rewrite (submitRequest_accepted backend c w r E).
  cbn [fst snd]. rewrite (or_else_nonempty _ _ u Hu Hun).
  rewrite (or_else_nonempty _ _ t Ht Htn).
  cbn [bind setPassword setConfirm set_state fst snd].
  rewrite submitConfirm_dispatches by reflexivity.
  cbn [map]. rewrite outgoing_body. reflexivity.
Qed.

End ResetEndToEnd.

(** ** Routes *)

Lemma links_render (c : LoginPage.state) :
  LoginPage.links (LoginPage.render c) = ["/register"; "/forgot-password"].
Proof.
  unfold LoginPage.render. cbn.
  destruct (JS.truthy_string (LoginPage.error c)); reflexivity.
Qed.

Lemma declared_paths :
  App.declared
  = ["/"; "/register"; "/forgot-password"; "/reset-password"; "/dashboard";
     "/settings/2fa"].
Proof. vm_compute. reflexivity. Qed.

Ltac in_list := apply list_elem_of_In; cbn; auto 10.

(** X25. Every place the two pages send the user to has a route of its
    own in [App]: the navigations and timers of [handleLogin] and
    [submitConfirm], under any backend, and the two links of the sign-in
    page all target declared paths, and so does the catch-all redirect. *)
Theorem navigation_targets_declared
    (backend : request_config -> net_result)
    (cl : LoginPage.state) (cf : ForgotPassword.state) (w : browser) :
  (forall p : string,
     p ∈ navigations
           (since w (LoginPage.fire (LoginPage.handleLogin backend) cl w).2) ->
     p ∈ App.declared)
  /\ (forall (p : string) (d : Z),
        (CbNavigate p, d)
          ∈ scheduled
              (since w
                 (ForgotPassword.fire (ForgotPassword.submitConfirm backend) cf w).2) ->
        p ∈ App.declared)
  /\ (forall p : string,
        p ∈ LoginPage.links (LoginPage.render cl) -> p ∈ App.declared)
  /\ (forall path to : string,
        (path, App.Redirect to) ∈ App.routes -> to ∈ App.declared).
Proof.
  rewrite declared_paths. split; [|split; [|split]].
  - intros p.
    destruct (handleLogin_cases backend cl w)
      as [[e E] | [[r [E D]] | [r [fields [E D]]]]].
    + rewrite (handleLogin_rejected backend cl w e E).
      cbn [snd]. rewrite since_app. cbn. intros H. inversion H.
    + rewrite (handleLogin_null_body backend cl w r E D).
      cbn [snd]. rewrite since_app. cbn. intros H. inversion H.
    + rewrite (handleLogin_fulfilled backend cl w r fields E D).
      cbn [snd]. rewrite since_app. cbn.
      intros ->%list_elem_of_singleton. in_list.
  - intros p d.
    destruct (submitConfirm_cases backend cf w)
      as [[_ ->] | [[_ [r [_ ->]]] | [_ [e [er [_ [_ ->]]]]]]];
      cbn [snd]; rewrite since_app; cbn.
    + intros H. inversion H.
    + intros H. apply list_elem_of_singleton in H.
      assert (p = "/") as -> by congruence. in_list.
    + intros H. inversion H.
  - intros p H. rewrite links_render in H. apply list_elem_of_In in H.
    destruct H as [<- | [<- | []]]; in_list.
  - intros path to H. unfold App.routes in H.
    repeat (apply elem_of_cons in H as [H | H]; [try discriminate H|]).
    + assert (to = "/") as -> by congruence. in_list.
    + inversion H.
Qed.

Lemma navigation_targets_declared_witness :
  "/register" ∈ LoginPage.links (LoginPage.render Scenario.alice_wrong)
  /\ "/register" ∈ App.declared.
Proof.
  assert ("/register" ∈ LoginPage.links (LoginPage.render Scenario.alice_wrong))
    as H by (apply list_elem_of_In; cbn; auto).
  split; [exact H|].
  apply (proj1 (proj2 (proj2
           (navigation_targets_declared (Scenario.answers Scenario.unauthorized)
              Scenario.alice_wrong Scenario.mismatch Scenario.fresh)))
           "/register" H).
Defined.

Lemma confirm_payload_sent_witness :
  ForgotPassword.password Scenario.matching = ForgotPassword.confirm Scenario.matching
  /\ ForgotPassword.confirm_body Scenario.matching !! "uid" = Some "MQ"
  /\ ForgotPassword.confirm_body Scenario.matching !! "new_password"
     = Some "abc12345".
Proof.
  split; [reflexivity|].
  pose proof (confirm_payload_sent (Scenario.answers (Scenario.ok ∅))
                Scenario.matching Scenario.fresh eq_refl)
    as [_ [_ [_ [Hu [_ [Hp _]]]]]].
  split; [exact Hu | exact Hp].
Defined.

Lemma reset_request_failure_witness :
  API.settle
    (Scenario.answers Scenario.bad_request
       (API.outgoing "password-reset-request/"
          (ForgotPassword.request_body Scenario.asking) Scenario.fresh))
  = inr {| response := Some Scenario.bad_request |}
  /\ ForgotPassword.requestError
       (ForgotPassword.fire
          (ForgotPassword.submitRequest (Scenario.answers Scenario.bad_request))
          Scenario.asking Scenario.fresh).1.2
     = "Invalid credentials".
Proof.
  split; [reflexivity|].
  apply (proj1 (reset_request_failure (Scenario.answers Scenario.bad_request)
                  Scenario.asking Scenario.fresh
                  {| response := Some Scenario.bad_request |} eq_refl)
           Scenario.bad_request "Invalid credentials" eq_refl eq_refl
           ltac:(discriminate)).
Defined.

Lemma reset_confirm_failure_witness :
  ForgotPassword.password Scenario.matching = ForgotPassword.confirm Scenario.matching
  /\ API.settle
       ((fun _ => NetFault)
          (API.outgoing "password-reset-confirm/"
             (ForgotPassword.confirm_body Scenario.matching) Scenario.fresh))
     = inr {| response := None |}
  /\ ForgotPassword.confirmError
       (ForgotPassword.fire (ForgotPassword.submitConfirm (fun _ => NetFault))
          Scenario.matching Scenario.fresh).1.2
     = "Unable to reset password.".
Proof.
  split; [reflexivity|]. split; [reflexivity|].
  apply (proj1 (proj2
           (reset_confirm_failure (fun _ => NetFault) Scenario.link_query
              Scenario.matching Scenario.fresh {| response := None |}
              eq_refl eq_refl))).
  left. reflexivity.
Defined.

Lemma link_pair_reaches_backend_witness :
  ForgotPassword.get Scenario.link_query "uid" = Some "MQ"
  /\ ForgotPassword.get Scenario.link_query "token" = Some "c9x-41f"
  /\ map body
       (dispatched
          (since Scenario.fresh
             (ForgotPassword.fire
                (ForgotPassword.submitConfirm (Scenario.answers (Scenario.ok ∅)))
                ((ForgotPassword.effect_showConfirm Scenario.link_query ;;;
                  ForgotPassword.setPassword "abc12345" ;;;
                  ForgotPassword.setConfirm "abc12345")
                   (ForgotPassword.initial_state Scenario.link_query)
                   Scenario.fresh).1.2
                Scenario.fresh).2))
     = [ {[ "uid" := JS.trim "MQ"; "token" := JS.trim "c9x-41f";
            "new_password" := "abc12345" ]} ].
Proof.
  split; [reflexivity|]. split; [reflexivity|].
  apply (link_pair_reaches_backend (Scenario.answers (Scenario.ok ∅))
           Scenario.link_query "MQ" "c9x-41f" "abc12345" Scenario.fresh);
    [reflexivity | discriminate | reflexivity | discriminate].
Defined.

Lemma request_pair_reaches_backend_witness :
  API.settle
    (Scenario.answers (Scenario.ok {[ "uid" := "MQ"; "token" := "tok-1" ]})
       (API.outgoing "password-reset-request/"
          (ForgotPassword.request_body Scenario.asking) Scenario.fresh))
  = inl (Scenario.ok {[ "uid" := "MQ"; "token" := "tok-1" ]})
  /\ map body
       (dispatched
          (since
             (ForgotPassword.fire
                (ForgotPassword.submitRequest
                   (Scenario.answers
                      (Scenario.ok {[ "uid" := "MQ"; "token" := "tok-1" ]})))
                Scenario.asking Scenario.fresh).2
             (ForgotPassword.fire
                (ForgotPassword.submitConfirm (Scenario.answers (Scenario.ok ∅)))
                ((ForgotPassword.setPassword "abc12345" ;;;
                  ForgotPassword.setConfirm "abc12345")
                   (ForgotPassword.fire
                      (ForgotPassword.submitRequest
                         (Scenario.answers
                            (Scenario.ok {[ "uid" := "MQ"; "token" := "tok-1" ]})))
                      Scenario.asking Scenario.fresh).1.2
                   (ForgotPassword.fire
                      (ForgotPassword.submitRequest
                         (Scenario.answers
                            (Scenario.ok {[ "uid" := "MQ"; "token" := "tok-1" ]})))
                      Scenario.asking Scenario.fresh).2).1.2
                (ForgotPassword.fire
                   (ForgotPassword.submitRequest
                      (Scenario.answers
                         (Scenario.ok {[ "uid" := "MQ"; "token" := "tok-1" ]})))
                   Scenario.asking Scenario.fresh).2).2))
     = [ {[ "uid" := JS.trim "MQ"; "token" := JS.trim "tok-1";
            "new_password" := "abc12345" ]} ].
Proof.
  split; [reflexivity|].
  apply (request_pair_reaches_backend
           (Scenario.answers (Scenario.ok {[ "uid" := "MQ"; "token" := "tok-1" ]}))
           (Scenario.answers (Scenario.ok ∅))
           Scenario.asking Scenario.fresh
           (Scenario.ok {[ "uid" := "MQ"; "token" := "tok-1" ]})
           "MQ" "tok-1" "abc12345");
    [reflexivity | vm_compute; reflexivity | discriminate
     | vm_compute; reflexivity | discriminate].
Defined.

(** ** Properties across the three handlers *)

Lemma evicted_lookup (m : gmap string string) (r : http_response) :
  status r = 401 ->
  (if status r =? 401
   then delete "refresh_token" (delete "access_token" m)
   else m) !! "access_token" = None
  /\ (if status r =? 401
      then delete "refresh_token" (delete "access_token" m)
      else m) !! "refresh_token" = None.
Proof.
  intros ->. cbn. split.
  - rewrite lookup_delete_ne by discriminate. apply lookup_delete_eq.
  - apply lookup_delete_eq.
Qed.

Section AcrossHandlers.

Variable backend : request_config -> net_result.

(** X26. Session eviction does not depend on the page: when the backend
    answers 401 to whatever it is sent, a sign-in, a reset request and a
    reset confirmation (with equal passwords) each leave the storage
    without [access_token] and without [refresh_token]. *)
Theorem unauthorized_evicts_from_every_page
    (cl : LoginPage.state) (cf : ForgotPassword.state) (w : browser) :
  (forall config : request_config,
     exists r, backend config = NetResponse r /\ status r = 401) ->
  (localStorage (LoginPage.fire (LoginPage.handleLogin backend) cl w).2
     !! "access_token" = None
   /\ localStorage (LoginPage.fire (LoginPage.handleLogin backend) cl w).2
        !! "refresh_token" = None)
  /\ (localStorage
        (ForgotPassword.fire (ForgotPassword.submitRequest backend) cf w).2
        !! "access_token" = None
      /\ localStorage
           (ForgotPassword.fire (ForgotPassword.submitRequest backend) cf w).2
           !! "refresh_token" = None)
  /\ (ForgotPassword.password cf = ForgotPassword.confirm cf ->
      localStorage
        (ForgotPassword.fire (ForgotPassword.submitConfirm backend) cf w).2
        !! "access_token" = None
      /\ localStorage
           (ForgotPassword.fire (ForgotPassword.submitConfirm backend) cf w).2
           !! "refresh_token" = None).
Proof.
  intros H401. split; [|split].
  - destruct (H401 (API.outgoing "login/" (LoginPage.payload cl) w))
      as [r [Hb Hs]].
    rewrite (handleLogin_rejected backend cl w _ (settle_401 backend _ r Hb Hs)).
    cbn [snd localStorage response]. exact (evicted_lookup _ r Hs).
  - destruct (H401 (API.outgoing "password-reset-request/"
                      (ForgotPassword.request_body cf) w)) as [r [Hb Hs]].
    rewrite (submitRequest_rejected backend cf w _ (settle_401 backend _ r Hb Hs)).
    cbn [snd localStorage response]. exact (evicted_lookup _ r Hs).
  - intros Heq.
    destruct (H401 (API.outgoing "password-reset-confirm/"
                      (ForgotPassword.confirm_body cf) w)) as [r [Hb Hs]].
    rewrite (submitConfirm_rejected backend cf w _ Heq
               (settle_401 backend _ r Hb Hs)).
    cbn [snd localStorage response]. exact (evicted_lookup _ r Hs).
Qed.

(** X27. Nothing is retried and nothing else is called: a run of any of
    the three handlers dispatches at most one request, and a request it
    dispatches is a POST with a JSON content type to the endpoint of that
    handler. *)
Theorem handlers_dispatch_at_most_once
    (cl : LoginPage.state) (cf : ForgotPassword.state) (w : browser) :
  (exists config : request_config,
     dispatched (since w (LoginPage.fire (LoginPage.handleLogin backend) cl w).2)
     = [config]
     /\ url config = "login/" /\ method config = "post"
     /\ headers config !! "Content-Type" = Some "application/json")
  /\ (exists config : request_config,
        dispatched
          (since w (ForgotPassword.fire (ForgotPassword.submitRequest backend) cf w).2)
        = [config]
        /\ url config = "password-reset-request/" /\ method config = "post"
        /\ headers config !! "Content-Type" = Some "application/json")
  /\ (dispatched
        (since w (ForgotPassword.fire (ForgotPassword.submitConfirm backend) cf w).2)
      = []
      \/ exists config : request_config,
           dispatched
             (since w
                (ForgotPassword.fire (ForgotPassword.submitConfirm backend) cf w).2)
           = [config]
           /\ url config = "password-reset-confirm/" /\ method config = "post"
           /\ headers config !! "Content-Type" = Some "application/json").
Proof.
  assert (forall path payload,
            url (API.outgoing path payload w) = path
            /\ method (API.outgoing path payload w) = "post"
            /\ headers (API.outgoing path payload w) !! "Content-Type"
               = Some "application/json") as Hout.
  { intros path payload. split; [apply outgoing_url|].
    unfold API.outgoing, API.with_bearer.
    destruct (JS.truthy (localStorage w !! "access_token")); split; reflexivity. }
  split; [|split].
  - eexists. split; [apply handleLogin_dispatches | apply Hout].
  - eexists. split; [apply submitRequest_dispatches | apply Hout].
  - destruct (decide (ForgotPassword.password cf = ForgotPassword.confirm cf))
      as [Heq|Hne].
    + right. eexists. split; [apply (submitConfirm_dispatches backend cf w Heq)|].
      apply Hout.
    + left. rewrite (submitConfirm_mismatch backend cf w Hne).
      cbn [snd]. rewrite since_app. reflexivity.
Qed.

(** X28. Whatever the backend answers, [handleLogin] touches no entry of
    [localStorage] other than [access_token] and [refresh_token]. *)
Theorem login_touches_only_tokens
    (cl : LoginPage.state) (w : browser) (k : string) :
  k <> "access_token" -> k <> "refresh_token" ->
  localStorage (LoginPage.fire (LoginPage.handleLogin backend) cl w).2 !! k
  = localStorage w !! k.
Proof.
  intros Ha Hr.
  destruct (handleLogin_cases backend cl w)
    as [[e E] | [[r [E D]] | [r [fields [E D]]]]].
  - rewrite (handleLogin_rejected backend cl w e E). cbn [snd localStorage].
    destruct (response e) as [r|]; [|reflexivity].
    destruct (status r =? 401); [|reflexivity].
    rewrite !lookup_delete_ne by congruence. reflexivity.
  - rewrite (handleLogin_null_body backend cl w r E D). reflexivity.
  - rewrite (handleLogin_fulfilled backend cl w r fields E D).
    cbn [snd localStorage].
    destruct (JS.truthy (fields !! "refresh")); cbn [id];
      rewrite !lookup_insert_ne by congruence; reflexivity.
Qed.

End AcrossHandlers.

Lemma unauthorized_evicts_from_every_page_witness :
  (forall config : request_config,
     exists r, Scenario.answers Scenario.unauthorized config = NetResponse r
               /\ status r = 401)
  /\ localStorage
       (ForgotPassword.fire
          (ForgotPassword.submitRequest (Scenario.answers Scenario.unauthorized))
          Scenario.asking Scenario.signed_in).2 !! "access_token" = None.
Proof.
  assert (forall config : request_config,
            exists r, Scenario.answers Scenario.unauthorized config = NetResponse r
                      /\ status r = 401) as H.
  { intros config. exists Scenario.unauthorized. split; reflexivity. }
  split; [exact H|].
  apply (proj1 (proj1 (proj2
           (unauthorized_evicts_from_every_page
              (Scenario.answers Scenario.unauthorized)
              Scenario.alice_wrong Scenario.asking Scenario.signed_in H)))).
Defined.

Lemma login_touches_only_tokens_witness :
  "theme" <> "access_token" /\ "theme" <> "refresh_token"
  /\ localStorage
       (LoginPage.fire
          (LoginPage.handleLogin (Scenario.answers Scenario.both_tokens))
          Scenario.alice_2fa Scenario.signed_in).2 !! "theme"
     = localStorage Scenario.signed_in !! "theme".
Proof.
  split; [discriminate|]. split; [discriminate|].
  apply (login_touches_only_tokens (Scenario.answers Scenario.both_tokens)
           Scenario.alice_2fa Scenario.signed_in "theme");
    discriminate.
Defined.
